(** * Device handler of synapse (synapse/handlers/device.py)

    A shallow embedding of [DeviceHandler] and of the collaborators it
    talks to (storage, room state, notifier, federation), followed by the
    properties of the device-list synchronisation protocol.

    Python values are embedded as [PyVal]; a handler method becomes a
    computation in the monad [M], which threads the mutable part of the
    homeserver and may raise a Python exception.  A raised exception does
    not roll back what was written before it. *)

From Stdlib Require Import ZArith String Ascii List Lia.
From stdpp Require Import base option list gmap strings fin_maps pretty.

Set Warnings "-register-all".
Local Open Scope Z_scope.
Local Open Scope string_scope.
Local Open Scope list_scope.

(** ** Python values *)

(** The JSON-like values that travel in EDUs and database rows.  Text is
    kept as byte strings; booleans and floats do not occur in the fields
    the handler inspects and are left out.  What [str] prints for a list
    or a dict (quoting, escapes, the order of dict keys) is not fixed here:
    it is the field [nested_str] of the environment. *)
Inductive PyVal : Type :=
  | VNone
  | VInt (z : Z)
  | VStr (s : string)
  | VList (l : list PyVal)
  | VDict (d : list (string * PyVal)).

(** A dict with string keys, such as an EDU body or a device row. *)
Abbreviation PyDict := (gmap string PyVal).

Definition PyVal_eq_dec : forall a b : PyVal, {a = b} + {a <> b}.
Proof.
  fix IH 1.
  intros a b; destruct a as [|z|s|l|d], b as [|z'|s'|l'|d'];
    try (right; discriminate); try (left; reflexivity).
  - destruct (Z.eq_dec z z'); [left; congruence | right; congruence].
  - destruct (String.string_dec s s'); [left; congruence | right; congruence].
  - destruct (List.list_eq_dec IH l l'); [left; congruence | right; congruence].
  - assert (Hp : forall p q : string * PyVal, {p = q} + {p <> q}).
    { intros [k x] [k' x'].
      destruct (String.string_dec k k'); [|right; congruence].
      destruct (IH x x'); [left; congruence | right; congruence]. }
    destruct (List.list_eq_dec Hp d d'); [left; congruence | right; congruence].
Defined.

#[global] Instance PyVal_eq_decision : EqDecision PyVal := PyVal_eq_dec.

(** [s.upper()] *)
Definition upper_ascii (c : ascii) : ascii :=
  let n := nat_of_ascii c in
  if ((97 <=? n)%nat && (n <=? 122)%nat)%bool then ascii_of_nat (n - 32) else c.

Fixpoint upper (s : string) : string :=
  match s with
  | EmptyString => EmptyString
  | String c r => String (upper_ascii c) (upper r)
  end.

(** ** Exceptions *)

(** [StoreError] and [NotFoundError] are the two classes of
    [synapse.api.errors] the handler names; they are siblings, so an
    [except errors.StoreError] clause does not catch a [NotFoundError]. *)
Inductive Exn : Type :=
  | StoreError (code : Z) (msg : string)
  | NotFoundError
  | SynapseError (code : Z) (msg : string)
  | KeyError (key : PyVal)
  | IndexError
  | TypeError
  | AttributeError
  | TransportError (msg : string).

Definition is_StoreError (e : Exn) : bool :=
  match e with StoreError _ _ => true | _ => false end.

Inductive Res (A : Type) : Type :=
  | Ret (a : A)
  | Raise (e : Exn).
Arguments Ret {A} a.
Arguments Raise {A} e.

(** ** The homeserver: collaborators and their state *)

(** One constructor per collaborator method the handler calls, with the
    arguments that identify the call. *)
Inductive Call : Type :=
  | store_store_device (user_id device_id : string)
  | store_get_devices_by_user (user_id : string)
  | store_get_device (user_id device_id : string)
  | store_get_last_client_ip_by_device (devices : list (string * string))
  | store_delete_device (user_id device_id : string)
  | store_user_delete_access_tokens (user_id device_id : string)
  | store_delete_e2e_keys_by_device (user_id device_id : string)
  | store_get_rooms_for_user (user_id : string)
  | store_add_device_change_to_streams (user_id : string) (device_ids : list PyVal)
  | store_get_user_whose_devices_changed (from_key : Z)
  | store_get_device_list_remote_extremity (user_id : string)
  | store_update_remote_device_list_cache (user_id : string)
  | store_update_remote_device_list_cache_entry (user_id : string) (device_id : PyVal)
  | state_get_current_user_in_room (room_id : string)
  | notifier_on_new_event (position : Z) (rooms : list string)
  | federation_sender_send_device_messages (host : string)
  | federation_query_user_devices (origin user_id : string).

(** What this server knows of one remote user (spec, data model). *)
Record RemoteCacheEntry : Type := {
  stream_extremity : PyVal;
  rc_devices : list (PyVal * PyDict)
}.

(** One record per [notify_device_update] (spec, data model). *)
Record DeviceListChange : Type := {
  stream_position : Z;
  dlc_user_id : string;
  dlc_device_ids : list PyVal;
  destination_hosts : list string
}.

(** The answer of a remote server to a [user_devices] query; a key the
    answer lacks is [None]. *)
Record QueryResult : Type := {
  qr_stream_id : option PyVal;
  qr_devices : option (list PyDict)
}.

(** The part of the world a handler call only reads: configuration, room
    membership, what remote servers answer, which calls fail, the outcomes
    of the random generator, and what [str] prints for a list or a dict. *)
Record Env : Type := {
  server_name : string;
  nested_str : PyVal -> string;
  faults : Call -> option Exn;
  random : nat -> string;
  remote_reply : string -> string -> QueryResult;
  rooms_for_user : gmap string (list string);
  users_in_room : gmap string (list string);
  client_ips : gmap (string * string) PyDict
}.

(** The part a handler call may write. [calls] is the trace of
    collaborator calls, oldest first. *)
Record State : Type := {
  rng_pos : nat;
  devices : gmap string (gmap string PyVal);
  access_tokens : list (string * string * string);
  e2e_keys : gmap (string * string) PyVal;
  remote_cache : gmap string RemoteCacheEntry;
  stream_pos : Z;
  device_changes : list DeviceListChange;
  notifier_events : list (Z * list string);
  pokes : list string;
  calls : list Call
}.

Definition set_rng_pos (v : nat) (s : State) : State :=
  {| rng_pos := v; devices := devices s; access_tokens := access_tokens s;
     e2e_keys := e2e_keys s; remote_cache := remote_cache s;
     stream_pos := stream_pos s; device_changes := device_changes s;
     notifier_events := notifier_events s; pokes := pokes s; calls := calls s |}.

Definition set_devices (v : gmap string (gmap string PyVal)) (s : State) : State :=
  {| rng_pos := rng_pos s; devices := v; access_tokens := access_tokens s;
     e2e_keys := e2e_keys s; remote_cache := remote_cache s;
     stream_pos := stream_pos s; device_changes := device_changes s;
     notifier_events := notifier_events s; pokes := pokes s; calls := calls s |}.

Definition set_access_tokens (v : list (string * string * string)) (s : State) : State :=
  {| rng_pos := rng_pos s; devices := devices s; access_tokens := v;
     e2e_keys := e2e_keys s; remote_cache := remote_cache s;
     stream_pos := stream_pos s; device_changes := device_changes s;
     notifier_events := notifier_events s; pokes := pokes s; calls := calls s |}.

Definition set_e2e_keys (v : gmap (string * string) PyVal) (s : State) : State :=
  {| rng_pos := rng_pos s; devices := devices s; access_tokens := access_tokens s;
     e2e_keys := v; remote_cache := remote_cache s;
     stream_pos := stream_pos s; device_changes := device_changes s;
     notifier_events := notifier_events s; pokes := pokes s; calls := calls s |}.

Definition set_remote_cache (v : gmap string RemoteCacheEntry) (s : State) : State :=
  {| rng_pos := rng_pos s; devices := devices s; access_tokens := access_tokens s;
     e2e_keys := e2e_keys s; remote_cache := v;
     stream_pos := stream_pos s; device_changes := device_changes s;
     notifier_events := notifier_events s; pokes := pokes s; calls := calls s |}.

Definition record_change (c : DeviceListChange) (s : State) : State :=
  {| rng_pos := rng_pos s; devices := devices s; access_tokens := access_tokens s;
     e2e_keys := e2e_keys s; remote_cache := remote_cache s;
     stream_pos := stream_position c; device_changes := device_changes s ++ [c];
     notifier_events := notifier_events s; pokes := pokes s; calls := calls s |}.

Definition record_event (ev : Z * list string) (s : State) : State :=
  {| rng_pos := rng_pos s; devices := devices s; access_tokens := access_tokens s;
     e2e_keys := e2e_keys s; remote_cache := remote_cache s;
     stream_pos := stream_pos s; device_changes := device_changes s;
     notifier_events := notifier_events s ++ [ev]; pokes := pokes s; calls := calls s |}.

Definition record_poke (host : string) (s : State) : State :=
  {| rng_pos := rng_pos s; devices := devices s; access_tokens := access_tokens s;
     e2e_keys := e2e_keys s; remote_cache := remote_cache s;
     stream_pos := stream_pos s; device_changes := device_changes s;
     notifier_events := notifier_events s; pokes := pokes s ++ [host]; calls := calls s |}.

Definition record_call (c : Call) (s : State) : State :=
  {| rng_pos := rng_pos s; devices := devices s; access_tokens := access_tokens s;
     e2e_keys := e2e_keys s; remote_cache := remote_cache s;
     stream_pos := stream_pos s; device_changes := device_changes s;
     notifier_events := notifier_events s; pokes := pokes s; calls := calls s ++ [c] |}.

(** ** The monad of handler code *)

Definition M (A : Type) : Type := State -> State * Res A.

Definition ret {A} (a : A) : M A := fun s => (s, Ret a).
Definition raise {A} (e : Exn) : M A := fun s => (s, Raise e).
Definition bind {A B} (m : M A) (k : A -> M B) : M B :=
  fun s => match m s with
           | (s', Ret a) => k a s'
           | (s', Raise e) => (s', Raise e)
           end.

(** [try: m  except <class selected by catches>, e: handler e] *)
Definition try_except {A} (m : M A) (catches : Exn -> bool) (handler : Exn -> M A) : M A :=
  fun s => match m s with
           | (s', Raise e) => if catches e then handler e s' else (s', Raise e)
           | r => r
           end.

Definition get_state : M State := fun s => (s, Ret s).
Definition modify (f : State -> State) : M unit := fun s => (f s, Ret tt).

Declare Scope py_scope.
Delimit Scope py_scope with py.
Notation "x <- m ;; k" := (bind m (fun x => k))
  (at level 100, m at next level, right associativity) : py_scope.
Notation "m ;;; k" := (bind m (fun _ => k))
  (at level 100, right associativity) : py_scope.
Local Open Scope py_scope.

(** [for x in l: body x] *)
Fixpoint for_each {A} (l : list A) (body : A -> M unit) : M unit :=
  match l with
  | [] => ret tt
  | x :: r => body x ;;; for_each r body
  end.

(** [d[key]] on a dict: [KeyError] when the key is missing. *)
Definition getitem (d : PyDict) (key : string) : M PyVal :=
  match d !! key with
  | Some v => ret v
  | None => raise (KeyError (VStr key))
  end.

(** [for x in l: acc = step acc x] *)
Fixpoint fold_m {A B} (step : B -> A -> M B) (l : list A) (acc : B) : M B :=
  match l with
  | [] => ret acc
  | x :: r => acc' <- step acc x ;; fold_m step r acc'
  end.

(** [[f x for x in l]] *)
Fixpoint map_m {A B} (f : A -> M B) (l : list A) : M (list B) :=
  match l with
  | [] => ret []
  | x :: r => y <- f x ;; ys <- map_m f r ;; ret (y :: ys)
  end.

(** [len(v)] *)
Definition py_len (v : PyVal) : M Z :=
  match v with
  | VList l => ret (Z.of_nat (List.length l))
  | VStr s => ret (Z.of_nat (String.length s))
  | VDict d => ret (Z.of_nat (List.length d))
  | _ => raise TypeError
  end.

(** [v[0]] *)
Definition py_first (v : PyVal) : M PyVal :=
  match v with
  | VList (x :: _) => ret x
  | VList [] => raise IndexError
  | VStr (String c _) => ret (VStr (String c EmptyString))
  | VStr EmptyString => raise IndexError
  | VDict _ => raise (KeyError (VInt 0))
  | _ => raise TypeError
  end.

(** The text of a value used where a string method is called on it. *)
Definition as_text (v : PyVal) : M string :=
  match v with
  | VStr s => ret s
  | _ => raise AttributeError
  end.

Fixpoint after_colon (s : string) : option string :=
  match s with
  | EmptyString => None
  | String c r => if Ascii.eqb c ":" then Some r else after_colon r
  end.

(** Modelled from the spec: [synapse.types.get_domain_from_id] is not in
    the source; it yields the domain component of an id, the text after
    its first colon, and fails on an id that has none. *)
Definition get_domain_from_id (id : string) : M string :=
  match after_colon id with
  | Some d => ret d
  | None => raise (SynapseError 400 "Invalid ID")
  end.

(** The row the devices table returns for one device. *)
Definition device_row (user_id device_id : string) (display_name : PyVal) : PyDict :=
  <["user_id" := VStr user_id]>
    (<["device_id" := VStr device_id]> {["display_name" := display_name]}).

Definition user_devices (s : State) (user_id : string) : gmap string PyVal :=
  default ∅ (devices s !! user_id).

Definition device_exists (s : State) (user_id device_id : string) : Prop :=
  is_Some (user_devices s user_id !! device_id).

Fixpoint alist_lookup (k : PyVal) (l : list (PyVal * PyDict)) : option PyDict :=
  match l with
  | [] => None
  | (k', v) :: r => if decide (k = k') then Some v else alist_lookup k r
  end.

Fixpoint alist_insert (k : PyVal) (v : PyDict) (l : list (PyVal * PyDict))
  : list (PyVal * PyDict) :=
  match l with
  | [] => [(k, v)]
  | (k', v') :: r =>
      if decide (k = k') then (k, v) :: r else (k', v') :: alist_insert k v r
  end.

Section Homeserver.

Variable env : Env.

(** A collaborator call: it is added to the trace, and fails when the
    environment says that this call fails. *)
Definition call (c : Call) : M unit :=
  modify (record_call c) ;;;
  match faults env c with
  | Some e => raise e
  | None => ret tt
  end.

(** *** Storage *)

(** Modelled from the spec: the Storage collaborator ([self.store]) is not
    in the source.  [store_device] creates the device when it is not known
    and says whether it did; a known device is left as it is. *)
Definition store_device (user_id device_id : string) (display_name : PyVal) : M bool :=
  call (store_store_device user_id device_id) ;;;
  s <- get_state ;;
  match user_devices s user_id !! device_id with
  | Some _ => ret false
  | None =>
      modify (set_devices
                (<[user_id := <[device_id := display_name]> (user_devices s user_id)]>
                   (devices s))) ;;;
      ret true
  end.

(** Modelled from the spec: Storage [get_devices_by_user], the rows of a
    user's devices keyed by device id. *)
Definition get_devices_by_user_rows (user_id : string) : M (gmap string PyDict) :=
  call (store_get_devices_by_user user_id) ;;;
  s <- get_state ;;
  ret (map_imap (fun d name => Some (device_row user_id d name)) (user_devices s user_id)).

(** Modelled from the spec: Storage [get_device]; an absent device is
    signalled by a [StoreError] with code 404. *)
Definition get_device_row (user_id device_id : string) : M PyDict :=
  call (store_get_device user_id device_id) ;;;
  s <- get_state ;;
  match user_devices s user_id !! device_id with
  | Some name => ret (device_row user_id device_id name)
  | None => raise (StoreError 404 "No row found")
  end.

(** Modelled from the spec: Storage [get_last_client_ip_by_device], the
    client-IP rows of the given devices, keyed by (user_id, device_id). *)
Definition get_last_client_ip_by_device (devs : list (string * string))
  : M (gmap (string * string) PyDict) :=
  call (store_get_last_client_ip_by_device devs) ;;;
  ret (filter (fun kv => kv.1 ∈ devs) (client_ips env)).

(** Modelled from the spec: Storage [delete_device] signals not-found
    distinctly from other errors, as a [StoreError] with code 404. *)
Definition delete_device_row (user_id device_id : string) : M unit :=
  call (store_delete_device user_id device_id) ;;;
  s <- get_state ;;
  match user_devices s user_id !! device_id with
  | Some _ =>
      modify (set_devices
                (<[user_id := delete device_id (user_devices s user_id)]> (devices s)))
  | None => raise (StoreError 404 "No row found")
  end.

(** Modelled from the spec: Storage [user_delete_access_tokens], called
    with a device id: the tokens of that user scoped to that device go. *)
Definition user_delete_access_tokens (user_id device_id : string) : M unit :=
  call (store_user_delete_access_tokens user_id device_id) ;;;
  s <- get_state ;;
  modify (set_access_tokens
            (filter (fun t => ¬ (t.1.1 = user_id ∧ t.1.2 = device_id)) (access_tokens s))).

(** Modelled from the spec: Storage [delete_e2e_keys_by_device]. *)
Definition delete_e2e_keys_by_device (user_id device_id : string) : M unit :=
  call (store_delete_e2e_keys_by_device user_id device_id) ;;;
  s <- get_state ;;
  modify (set_e2e_keys (delete (user_id, device_id) (e2e_keys s))).

(** Modelled from the spec: Storage [get_rooms_for_user]. *)
Definition get_rooms_for_user (user_id : string) : M (list string) :=
  call (store_get_rooms_for_user user_id) ;;;
  ret (default [] (rooms_for_user env !! user_id)).

(** Modelled from the spec: Storage [add_device_change_to_streams] takes
    the next stream position and persists the change record at it. *)
Definition add_device_change_to_streams
    (user_id : string) (device_ids : list PyVal) (hosts : list string) : M Z :=
  call (store_add_device_change_to_streams user_id device_ids) ;;;
  s <- get_state ;;
  let position := stream_pos s + 1 in
  modify (record_change {| stream_position := position; dlc_user_id := user_id;
                           dlc_device_ids := device_ids;
                           destination_hosts := hosts |}) ;;;
  ret position.

(** Modelled from the spec: Storage [get_user_whose_devices_changed], the
    users with a change record at a position after [from_key]. *)
Definition get_user_whose_devices_changed (from_key : Z) : M (gset string) :=
  call (store_get_user_whose_devices_changed from_key) ;;;
  s <- get_state ;;
  ret (list_to_set
         (map dlc_user_id
              (filter (fun c => from_key < stream_position c) (device_changes s)))).

(** Modelled from the spec: Storage [get_device_list_remote_extremity];
    nothing cached for the user reads as [None]. *)
Definition get_device_list_remote_extremity (user_id : string) : M PyVal :=
  call (store_get_device_list_remote_extremity user_id) ;;;
  s <- get_state ;;
  ret (match remote_cache s !! user_id with
       | Some e => stream_extremity e
       | None => VNone
       end).

(** Modelled from the spec: Storage [update_remote_device_list_cache]
    replaces the cache entry of the user wholesale, in one transaction. *)
Definition update_remote_device_list_cache
    (user_id : string) (devs : list PyDict) (stream_id : PyVal) : M unit :=
  call (store_update_remote_device_list_cache user_id) ;;;
  ids <- map_m (fun content => getitem content "device_id") devs ;;
  modify (fun s =>
            set_remote_cache
              (<[user_id := {| stream_extremity := stream_id;
                               rc_devices := zip ids devs |}]> (remote_cache s)) s).

(** Modelled from the spec: Storage [update_remote_device_list_cache_entry]
    writes one device of the cache entry and moves the extremity. *)
Definition update_remote_device_list_cache_entry
    (user_id : string) (device_id : PyVal) (content : PyDict) (stream_id : PyVal)
  : M unit :=
  call (store_update_remote_device_list_cache_entry user_id device_id) ;;;
  modify (fun s =>
            let old := match remote_cache s !! user_id with
                       | Some e => rc_devices e
                       | None => []
                       end in
            set_remote_cache
              (<[user_id := {| stream_extremity := stream_id;
                               rc_devices := alist_insert device_id content old |}]>
                 (remote_cache s)) s).

(** *** State, notifier, federation, configuration *)

(** Modelled from the spec: State [get_current_user_in_room]. *)
Definition get_current_user_in_room (room_id : string) : M (list string) :=
  call (state_get_current_user_in_room room_id) ;;;
  ret (default [] (users_in_room env !! room_id)).

(** Modelled from the spec: Notifier [on_new_event] with kind
    [device_list_key]. *)
Definition on_new_event (position : Z) (rooms : list string) : M unit :=
  call (notifier_on_new_event position rooms) ;;;
  modify (record_event (position, rooms)).

(** Modelled from the spec: Federation Transport [send_device_messages],
    a poke of one host. *)
Definition send_device_messages (host : string) : M unit :=
  call (federation_sender_send_device_messages host) ;;;
  modify (record_poke host).

(** Modelled from the spec: Federation Transport [query_user_devices]. *)
Definition query_user_devices (origin user_id : string) : M QueryResult :=
  call (federation_query_user_devices origin user_id) ;;;
  ret (remote_reply env origin user_id).

(** Modelled from the spec: [hs.is_mine_id], whether the domain of the id
    is this server's name. *)
Definition is_mine_id (id : string) : M bool :=
  match after_colon id with
  | Some d => ret (String.eqb d (server_name env))
  | None => raise IndexError
  end.

(** [stringutils.random_string(n)]: the next outcome of the generator. *)
Definition random_string (n : Z) : M string :=
  s <- get_state ;;
  modify (set_rng_pos (S (rng_pos s))) ;;;
  ret (random env (rng_pos s)).

(** ** DeviceHandler *)

(** The hosts [notify_device_update] collects: for a local user, the
    domains of the members of the user's rooms, this server excluded; for
    a remote user, none. *)
Definition interested_hosts (user_id : string) (room_ids : list string) : M (gset string) :=
  mine <- is_mine_id user_id ;;
  if mine : bool
  then
    hosts <- fold_m
               (fun (hosts : gset string) room_id =>
                  users <- get_current_user_in_room room_id ;;
                  domains <- map_m get_domain_from_id users ;;
                  ret (hosts ∪ list_to_set domains))
               room_ids ∅ ;;
    ret (hosts ∖ {[server_name env]})
  else ret ∅.

(** [notify_device_update]: pokes the notifier, and remote servers if the
    user is local. *)
Definition notify_device_update (user_id : string) (device_ids : list PyVal) : M unit :=
  rooms <- get_rooms_for_user user_id ;;
  let room_ids := rooms in
  hosts <- interested_hosts user_id room_ids ;;
  position <- add_device_change_to_streams user_id device_ids (elements hosts) ;;
  on_new_event position room_ids ;;;
  if decide (hosts ≠ ∅)
  then for_each (elements hosts) send_device_messages
  else ret tt.

(** The loop of [check_device_registered] that makes up a device id;
    [remaining] is [5 - attempts]. *)
Fixpoint autogen_device_id (remaining : nat) (user_id : string) (display_name : PyVal)
  : M string :=
  match remaining with
  | O => raise (StoreError 500 "Couldn't generate a device ID.")
  | S remaining' =>
      r <- random_string 10 ;;
      let device_id := upper r in
      new_device <- store_device user_id device_id display_name ;;
      if new_device : bool
      then notify_device_update user_id [VStr device_id] ;;; ret device_id
      else autogen_device_id remaining' user_id display_name
  end.

Definition check_device_registered
    (user_id : string) (device_id : option string) (initial_device_display_name : PyVal)
  : M string :=
  match device_id with
  | Some device_id =>
      new_device <- store_device user_id device_id initial_device_display_name ;;
      (if new_device : bool
       then notify_device_update user_id [VStr device_id]
       else ret tt) ;;;
      ret device_id
  | None => autogen_device_id 5 user_id initial_device_display_name
  end.

(** A value that can be part of a dict key. *)
Definition hashable (v : PyVal) : bool :=
  match v with
  | VList _ | VDict _ => false
  | _ => true
  end.

(** [client_ips.get((u, d), {})] *)
Definition client_ips_get (ips : gmap (string * string) PyDict) (u d : PyVal) : M PyDict :=
  if (hashable u && hashable d)%bool
  then match u, d with
       | VStr u', VStr d' => ret (default ∅ (ips !! (u', d')))
       | _, _ => ret ∅
       end
  else raise TypeError.

Definition _update_device_from_client_ips
    (device : PyDict) (ips : gmap (string * string) PyDict) : M PyDict :=
  u <- getitem device "user_id" ;;
  d <- getitem device "device_id" ;;
  ip <- client_ips_get ips u d ;;
  ret (<["last_seen_ip" := default VNone (ip !! "ip")]>
         (<["last_seen_ts" := default VNone (ip !! "last_seen")]> device)).

Definition get_devices_by_user (user_id : string) : M (list PyDict) :=
  device_map <- get_devices_by_user_rows user_id ;;
  ips <- get_last_client_ip_by_device
           (map (fun device_id => (user_id, device_id)) (map_to_list device_map).*1) ;;
  let devices := (map_to_list device_map).*2 in
  map_m (fun device => _update_device_from_client_ips device ips) devices.

Definition get_device (user_id device_id : string) : M PyDict :=
  device <- try_except (get_device_row user_id device_id)
              is_StoreError (fun _ => raise NotFoundError) ;;
  ips <- get_last_client_ip_by_device [(user_id, device_id)] ;;
  _update_device_from_client_ips device ips.

Definition delete_device (user_id device_id : string) : M unit :=
  try_except (delete_device_row user_id device_id)
    is_StoreError
    (fun e => match e with
              | StoreError code _ => if (code =? 404)%Z then ret tt else raise e
              | _ => raise e
              end) ;;;
  user_delete_access_tokens user_id device_id ;;;
  delete_e2e_keys_by_device user_id device_id ;;;
  notify_device_update user_id [VStr device_id].

Definition get_device_list_changes
    (user_id : string) (room_ids : list string) (from_key : Z) : M (gset string) :=
  let room_ids : gset string := list_to_set room_ids in
  changed <- get_user_whose_devices_changed from_key ;;
  fold_m (fun (user_ids_changed : gset string) other_user_id =>
            other_rooms <- get_rooms_for_user other_user_id ;;
            if decide (room_ids ∩ list_to_set other_rooms ≠ ∅)
            then ret (user_ids_changed ∪ {[other_user_id]})
            else ret user_ids_changed)
         (elements changed) ∅.

(** [str(v)]: [None] prints as its name, an integer in decimal, a text is
    itself; a list or a dict prints as the environment says. *)
Definition py_str (v : PyVal) : string :=
  match v with
  | VNone => "None"
  | VInt z => pretty z
  | VStr s => s
  | VList _ | VDict _ => nested_str env v
  end.

(** The keys [_incoming_device_list_update] pops from the EDU body. *)
Definition popped_keys : list string := ["user_id"; "device_id"; "stream_id"; "prev_ids"].

(** The resync decision under the linearizer: [true] unless the single
    prev id is the cached extremity. *)
Definition resync_decision (user : string) (prev_ids : PyVal) : M bool :=
  n <- py_len prev_ids ;;
  if (n =? 1)%Z
  then extremity <- get_device_list_remote_extremity user ;;
       first <- py_first prev_ids ;;
       if String.eqb (py_str extremity) (py_str first) then ret false else ret true
  else ret true.

(** The handler of [m.device_list_update] EDUs.  The linearizer lets one
    handling per user run at a time, so the block under it is one
    uninterrupted computation here; [as_text] stands for the string method
    [get_domain_from_id] calls on the user id. *)
Definition _incoming_device_list_update (origin : string) (edu_content : PyDict) : M unit :=
  user_id <- getitem edu_content "user_id" ;;
  device_id <- getitem edu_content "device_id" ;;
  stream_id <- getitem edu_content "stream_id" ;;
  let prev_ids := default (VList []) (edu_content !! "prev_id") in
  user <- as_text user_id ;;
  domain <- get_domain_from_id user ;;
  if negb (String.eqb domain origin)
  then ret tt
  else
    resync <- resync_decision user prev_ids ;;
    if resync : bool
    then
      result <- query_user_devices origin user ;;
      stream_id <- match qr_stream_id result with
                   | Some v => ret v
                   | None => raise (KeyError (VStr "stream_id"))
                   end ;;
      devices <- match qr_devices result with
                 | Some v => ret v
                 | None => raise (KeyError (VStr "devices"))
                 end ;;
      update_remote_device_list_cache user devices stream_id ;;;
      device_ids <- map_m (fun device => getitem device "device_id") devices ;;
      notify_device_update user device_ids
    else
      let content := foldl (fun c key => delete key c) edu_content popped_keys in
      update_remote_device_list_cache_entry user device_id content stream_id ;;;
      notify_device_update user [device_id].

End Homeserver.

(** ** Vocabulary of the properties *)

Section Vocabulary.

Variable env : Env.

(** [effect I m]: whatever [m] does and however it ends, the states before
    and after are related by [I]. *)
Definition effect {A} (I : relation State) (m : M A) : Prop :=
  forall s, I s (m s).1.

(** [returns m P]: from every state, [m] returns a value, and the value
    satisfies [P]. *)
Definition returns {A} (m : M A) (P : A -> Prop) : Prop :=
  forall s, exists s' a, m s = (s', Ret a) /\ P a.

Definition any {A} : A -> Prop := fun _ => True.

(** The fields no notification touches. *)
Definition same_store : relation State := fun s s' =>
  rng_pos s' = rng_pos s /\ devices s' = devices s /\
  access_tokens s' = access_tokens s /\ e2e_keys s' = e2e_keys s /\
  remote_cache s' = remote_cache s.

(** The fields only a notification touches. *)
Definition same_stream : relation State := fun s s' =>
  stream_pos s' = stream_pos s /\ device_changes s' = device_changes s /\
  notifier_events s' = notifier_events s /\ pokes s' = pokes s.

(** No notification is recorded. *)
Definition same_changes : relation State := fun s s' =>
  stream_pos s' = stream_pos s /\ device_changes s' = device_changes s /\
  notifier_events s' = notifier_events s.

(** Everything but the trace is kept. *)
Definition same_data : relation State := fun s s' => same_store s s' /\ same_stream s s'.

(** The trace grows by calls that all satisfy [Q]. *)
Definition trace_of (Q : Call -> bool) : relation State := fun s s' =>
  exists d, calls s' = calls s ++ d /\ forallb Q d = true.


Definition no_faults : Prop := forall c, faults env c = None.

(** The ids [notify_device_update] takes a domain of are well formed. *)
Definition valid_ids (user_id : string) : Prop :=
  is_Some (after_colon user_id) /\
  forall room x,
    room ∈ default [] (rooms_for_user env !! user_id) ->
    x ∈ default [] (users_in_room env !! room) ->
    is_Some (after_colon x).

(** The record a successful [notify_device_update] leaves behind: one
    change at the next stream position and one notifier event. *)
Definition notified (u : string) (ids : list PyVal) (s s' : State) : Prop :=
  exists hosts,
    stream_pos s' = stream_pos s + 1 /\
    device_changes s' =
      device_changes s ++ [{| stream_position := stream_pos s + 1; dlc_user_id := u;
                              dlc_device_ids := ids; destination_hosts := hosts |}] /\
    notifier_events s' =
      notifier_events s ++ [(stream_pos s + 1, default [] (rooms_for_user env !! u))].

(** The [i]-th device id the generator proposes from state [s] on. *)
Definition candidate (s : State) (i : nat) : string :=
  upper (random env (rng_pos s + i)).

(** [delete_device] from the first to the last storage call: the device
    row goes when there is one, and the tokens and keys of the device go
    in either case. *)
Definition after_delete (u d : string) (s : State) : State :=
  set_e2e_keys (delete (u, d) (e2e_keys s))
    (set_access_tokens
       (filter (fun t => ¬ (t.1.1 = u ∧ t.1.2 = d)) (access_tokens s))
       (match user_devices s u !! d with
        | Some _ => set_devices (<[u := delete d (user_devices s u)]> (devices s)) s
        | None => s
        end)).

(** What the client-IP store says about a device; [None] in Python when
    there is no row or the row lacks the column. *)
Definition seen_field (u d : string) (column : string) : PyVal :=
  default VNone (client_ips env !! (u, d) ≫= fun ip => ip !! column).

(** A device row with its two last-seen fields. *)
Definition with_last_seen (u d : string) (row : PyDict) : PyDict :=
  <["last_seen_ip" := seen_field u d "ip"]>
    (<["last_seen_ts" := seen_field u d "last_seen"]> row).

(** [_update_device_from_client_ips] as a function of the row alone, for
    rows that name their user and device. *)
Definition augment_row (row : PyDict) : PyDict :=
  match row !! "user_id", row !! "device_id" with
  | Some (VStr u), Some (VStr d) => with_last_seen u d row
  | _, _ => row
  end.

(** The rows storage returns for a user. *)
Definition device_rows (u : string) (s : State) : list (string * PyDict) :=
  map_to_list (map_imap (fun d name => Some (device_row u d name)) (user_devices s u)).

(** The users with a change record after [from_key]. *)
Definition changed_since (from_key : Z) (s : State) : gset string :=
  list_to_set
    (map dlc_user_id (filter (fun c => from_key < stream_position c) (device_changes s))).

(** The user is joined to one of the given rooms. *)
Definition in_rooms (room_ids : list string) (x : string) : Prop :=
  exists room, room ∈ room_ids /\ room ∈ default [] (rooms_for_user env !! x).

(** The extremity cached for a remote user. *)
Definition cached_extremity (s : State) (u : string) : PyVal :=
  match remote_cache s !! u with
  | Some e => stream_extremity e
  | None => VNone
  end.

(** There is exactly one prev id and its string form is that of the
    cached extremity. *)
Definition single_match (ps : list PyVal) (cached : PyVal) : bool :=
  match ps with
  | [p] => String.eqb (py_str env cached) (py_str env p)
  | _ => false
  end.

(** The string form of a value, as the specification has it: the word
    None for [None], the decimal digits of an integer with a minus sign
    when it is negative, a text itself, and for a list or a dict what [str]
    prints. *)
Definition string_form (v : PyVal) : string :=
  match v with
  | VNone => "None"
  | VInt z => if (z <? 0)%Z then "-" +:+ pretty (Z.abs_N z) else pretty (Z.to_N z)
  | VStr text => text
  | nested => nested_str env nested
  end.



Definition is_incremental_write (c : Call) : bool :=
  match c with store_update_remote_device_list_cache_entry _ _ => true | _ => false end.


(** An EDU body with its envelope: the user is a string, and the prev ids,
    when given, are a list. *)
Definition edu_for (edu : PyDict) (user : string) (device_id stream_id : PyVal)
    (ps : list PyVal) : Prop :=
  edu !! "user_id" = Some (VStr user) /\
  edu !! "device_id" = Some device_id /\
  edu !! "stream_id" = Some stream_id /\
  default (VList []) (edu !! "prev_id") = VList ps.

(** The state after the resync decision: the extremity is read only for a
    single prev id. *)
Definition after_decision (user : string) (ps : list PyVal) (s : State) : State :=
  match ps with
  | [_] => record_call (store_get_device_list_remote_extremity user) s
  | _ => s
  end.

(** The body the incremental path writes: the EDU without the popped keys. *)
Definition incremental_content (edu : PyDict) : PyDict :=
  foldl (fun c key => delete key c) edu popped_keys.

(** The cache entry of [user] is not written. *)
Definition keeps_cache_of (user : string) : relation State := fun s s' =>
  remote_cache s' !! user = remote_cache s !! user.

(** The decision of the handler on any value found under [prev_id]: a
    list of one id is compared with the cached extremity; a text of one
    character is measured and indexed by Python like a list of one id. *)
Definition applies_incrementally (prev_ids cached : PyVal) : bool :=
  match prev_ids with
  | VList ps => single_match ps cached
  | VStr (String c EmptyString) => String.eqb (py_str env cached) (String c EmptyString)
  | _ => false
  end.

(** The position an update carries: the EDU's stream id when it is applied
    incrementally, the stream id of the origin's answer when it leads to a
    resync. *)
Definition carried_position (origin user : string) (edu : PyDict) (s : State)
    : option PyVal :=
  match edu !! "stream_id" with
  | Some stream_id =>
      if applies_incrementally (default (VList []) (edu !! "prev_id"))
           (cached_extremity s user)
      then Some stream_id
      else qr_stream_id (remote_reply env origin user)
  | None => None
  end.


(** The transport delivers the updates one after the other. *)
Definition handle_updates (updates : list (string * PyDict)) : M unit :=
  for_each updates (fun u => _incoming_device_list_update env u.1 u.2).

End Vocabulary.

(** ** Scenarios *)

Definition init_state : State :=
  {| rng_pos := 0; devices := ∅; access_tokens := []; e2e_keys := ∅;
     remote_cache := ∅; stream_pos := 0; device_changes := [];
     notifier_events := []; pokes := []; calls := [] |}.

(** The server [home] with the local user [@a:home] and the remote user
    [@b:remote] in one room; every collaborator call works, and the
    generator proposes a new id at each draw.  The scenarios compare texts,
    integers and [None] only; no list or dict is printed in them. *)
Definition home_env : Env :=
  {| server_name := "home";
     nested_str := fun _ => "[]";
     faults := fun _ => None;
     random := fun n => String (ascii_of_nat (97 + n)) "bcdefghij";
     remote_reply := fun _ _ =>
       {| qr_stream_id := Some (VStr "9");
          qr_devices := Some [ {["device_id" := VStr "D1"]} ] |};
     rooms_for_user := {["@a:home" := ["!r"]; "@b:remote" := ["!r"]]};
     users_in_room := {["!r" := ["@a:home"; "@b:remote"]]};
     client_ips :=
       {[("@a:home", "D1") := {["ip" := VStr "10.0.0.1"; "last_seen" := VInt 1500]}]} |}.

Definition with_faults (f : Call -> option Exn) (e : Env) : Env :=
  {| server_name := server_name e; nested_str := nested_str e;
     faults := f; random := random e;
     remote_reply := remote_reply e; rooms_for_user := rooms_for_user e;
     users_in_room := users_in_room e; client_ips := client_ips e |}.

Definition with_random (r : nat -> string) (e : Env) : Env :=
  {| server_name := server_name e; nested_str := nested_str e;
     faults := faults e; random := r;
     remote_reply := remote_reply e; rooms_for_user := rooms_for_user e;
     users_in_room := users_in_room e; client_ips := client_ips e |}.

(** The resync query to the origin times out. *)
Definition timeout_env : Env :=
  with_faults (fun c => match c with
                        | federation_query_user_devices _ _ =>
                            Some (TransportError "timeout")
                        | _ => None
                        end) home_env.

(** The device lookup fails in storage for a reason other than absence. *)
Definition broken_store_env : Env :=
  with_faults (fun c => match c with
                        | store_get_device _ _ =>
                            Some (StoreError 500 "More than one row matched")
                        | _ => None
                        end) home_env.

(** The generator proposes the same id at every draw. *)
Definition stuck_env : Env := with_random (fun _ => "abcdefghij") home_env.

(** [@a:home] has registered [D1]. *)
Definition one_device : State :=
  (check_device_registered home_env "@a:home" (Some "D1") VNone init_state).1.

(** [@a:home] owns the one id [stuck_env] proposes. *)
Definition taken_state : State :=
  set_devices {["@a:home" := {["ABCDEFGHIJ" := VNone]}]} init_state.

(** The cache knows [@b:remote] at the given extremity. *)
Definition cache_at (extremity : PyVal) : State :=
  set_remote_cache
    {["@b:remote" := {| stream_extremity := extremity; rc_devices := [] |}]} init_state.

Definition edu_7 : PyDict :=
  {["user_id" := VStr "@b:remote"; "device_id" := VStr "D9"; "stream_id" := VStr "7";
    "prev_id" := VList [VStr "6"]; "keys" := VDict [("ed25519:D9", VStr "base64key")]]}.

(** An update whose stream id is below the prev id it names. *)
Definition edu_back : PyDict :=
  {["user_id" := VStr "@b:remote"; "device_id" := VStr "D9"; "stream_id" := VInt 3;
    "prev_id" := VList [VInt 6]]}.

(** The update before [edu_7]: it names prev id 5 and carries position 6. *)
Definition edu_6 : PyDict :=
  {["user_id" := VStr "@b:remote"; "device_id" := VStr "D8"; "stream_id" := VStr "6";
    "prev_id" := VList [VStr "5"]]}.



(** A first update for a user of another server; it names no prev id. *)
Definition edu_other : PyDict :=
  {["user_id" := VStr "@c:other"; "device_id" := VStr "D1"; "stream_id" := VStr "40"]}.

(** Four updates as the transport delivers them: two for [@b:remote] from
    its own server, one for that user from a server that is not the user's,
    one for a user of a third server. *)
Definition delivered : list (string * PyDict) :=
  [("remote", edu_6); ("remote", edu_7); ("elsewhere", edu_6); ("other", edu_other)].

Definition after_delivered : State :=
  (handle_updates home_env delivered (cache_at (VStr "5"))).1.

(** The double quote character. *)
Definition dquote : string := String (ascii_of_nat 34) EmptyString.

(** The text [it's], as a prev id nested in a list. *)
Definition quoted_id : PyVal := VList [VStr "it's"].

(** Python 2 prints the list [quoted_id] with the mark of a unicode text
    and double quotes around it; no other list or dict is printed in the
    scenario that uses this server. *)
Definition quoting_env : Env :=
  {| server_name := server_name home_env;
     nested_str := fun v =>
       if decide (v = quoted_id) then "[u" +:+ dquote +:+ "it's" +:+ dquote +:+ "]"
       else "[]";
     faults := faults home_env; random := random home_env;
     remote_reply := remote_reply home_env; rooms_for_user := rooms_for_user home_env;
     users_in_room := users_in_room home_env; client_ips := client_ips home_env |}.


(** ** Further methods of DeviceHandler *)

(** The collaborator calls of [update_device] and of
    [on_federation_query_user_devices]. *)
Inductive MoreCall : Type :=
  | store_update_device (user_id device_id : string)
  | store_get_devices_with_keys_by_user (user_id : string).

Section MoreHandlers.

Variable env : Env.

(** Which of the further storage calls fail. *)
Variable more_faults : MoreCall -> option Exn.

(** What storage lists for a user: the stream position and the devices
    with their keys. *)
Variable keyed_devices : State -> string -> PyVal * list PyDict.

Definition call_more (c : MoreCall) : M unit :=
  match more_faults c with
  | Some e => raise e
  | None => ret tt
  end.

(** Modelled from the spec: Storage [update_device] fails for an absent
    device, with the [StoreError] of code 404 that signals not-found, and
    writes the display name when one is given. *)
Definition update_device_row (user_id device_id : string) (new_display_name : PyVal)
  : M unit :=
  call_more (store_update_device user_id device_id) ;;;
  s <- get_state ;;
  match user_devices s user_id !! device_id with
  | Some old =>
      let name := match new_display_name with VNone => old | v => v end in
      modify (fun s =>
                set_devices (<[user_id := <[device_id := name]> (user_devices s user_id)]>
                               (devices s)) s)
  | None => raise (StoreError 404 "No row found")
  end.

Definition update_device (user_id device_id : string) (content : PyDict) : M unit :=
  try_except
    (update_device_row user_id device_id (default VNone (content !! "display_name")) ;;;
     notify_device_update env user_id [VStr device_id])
    is_StoreError
    (fun e => match e with
              | StoreError code _ => if (code =? 404)%Z then raise NotFoundError else raise e
              | _ => raise e
              end).

(** Modelled from the spec: Storage [get_devices_with_keys_by_user]; the
    listing itself is the parameter [keyed_devices]. *)
Definition get_devices_with_keys_by_user (user_id : string) : M (PyVal * list PyDict) :=
  call_more (store_get_devices_with_keys_by_user user_id) ;;;
  s <- get_state ;;
  ret (keyed_devices s user_id).

(** The dict [on_federation_query_user_devices] answers with. *)
Record UserDevices : Type := {
  ud_user_id : string;
  ud_stream_id : PyVal;
  ud_devices : list PyDict
}.

Definition on_federation_query_user_devices (user_id : string) : M UserDevices :=
  r <- get_devices_with_keys_by_user user_id ;;
  let stream_id := r.1 in
  let devices := r.2 in
  ret {| ud_user_id := user_id; ud_stream_id := stream_id; ud_devices := devices |}.

End MoreHandlers.

(** The answer as the querying server receives it. *)
Definition as_query_result (r : UserDevices) : QueryResult :=
  {| qr_stream_id := Some (ud_stream_id r); qr_devices := Some (ud_devices r) |}.

(** The exception is the [StoreError] that signals not-found. *)
Definition is_not_found (e : Exn) : bool :=
  match e with
  | StoreError code _ => (code =? 404)%Z
  | _ => false
  end.

(** The display name a device has after a registration with an explicit
    id: the one it had, or else the one given. *)
Definition name_after_register (s : State) (u d : string) (name : PyVal) : PyVal :=
  default name (user_devices s u !! d).

(** The devices the cache holds for a remote user. *)
Definition cached_devices (s : State) (u : string) : list (PyVal * PyDict) :=
  match remote_cache s !! u with
  | Some e => rc_devices e
  | None => []
  end.

(** No further storage call fails. *)
Definition no_more_faults : MoreCall -> option Exn := fun _ => None.

(** Token revocation fails in storage. *)
Definition revocation_fails_env : Env :=
  with_faults (fun c => match c with
                        | store_user_delete_access_tokens _ _ =>
                            Some (StoreError 500 "database unavailable")
                        | _ => None
                        end) home_env.

(** Deleting the device row fails in storage for a reason other than
    absence. *)
Definition delete_fails_env : Env :=
  with_faults (fun c => match c with
                        | store_delete_device _ _ =>
                            Some (StoreError 500 "database unavailable")
                        | _ => None
                        end) home_env.

(** The room lookup of the notification reports not-found. *)
Definition rooms_missing_env : Env :=
  with_faults (fun c => match c with
                        | store_get_rooms_for_user _ =>
                            Some (StoreError 404 "No row found")
                        | _ => None
                        end) home_env.

(** The device lookup times out. *)
Definition lookup_timeout_env : Env :=
  with_faults (fun c => match c with
                        | store_get_device _ _ => Some (TransportError "timeout")
                        | _ => None
                        end) home_env.

(** Storage lists each registered device by its id, at the current stream
    position. *)
Definition plain_listing (s : State) (u : string) : PyVal * list PyDict :=
  (VInt (stream_pos s),
   map (fun d => {["device_id" := VStr d]}) (map_to_list (user_devices s u)).*1).

(** On its own server, [@b:remote] has the device [D9]. *)
Definition one_remote_device : State :=
  set_devices {["@b:remote" := {["D9" := VStr "Laptop"]}]} init_state.

Definition is_poke (c : Call) : bool :=
  match c with federation_sender_send_device_messages _ => true | _ => false end.

(** The user is one of this server's own. *)
Definition is_local (env : Env) (u : string) : Prop :=
  after_colon u = Some (server_name env).

(** [h] is the domain of a member of one of the rooms of [u]. *)
Definition member_domain (env : Env) (u h : string) : Prop :=
  exists room x,
    room ∈ default [] (rooms_for_user env !! u) /\
    x ∈ default [] (users_in_room env !! room) /\
    after_colon x = Some h.

(** Nothing is poked and no poke is attempted. *)
Definition no_poke : relation State := fun s s' =>
  pokes s' = pokes s /\ List.filter is_poke (calls s') = List.filter is_poke (calls s).

(** Registered devices stay registered. *)
Definition devices_grow : relation State := fun s s' =>
  forall v d, device_exists s v d -> device_exists s' v d.

(** An update that lacks its stream id. *)
Definition edu_no_stream : PyDict :=
  {["user_id" := VStr "@b:remote"; "device_id" := VStr "D9"]}.

(** The cache knows [@b:remote] at extremity 6 with the device [D1]. *)
Definition cache_with_device : State :=
  set_remote_cache
    {["@b:remote" := {| stream_extremity := VStr "6";
                        rc_devices := [(VStr "D1", {["device_id" := VStr "D1"]})] |}]}
    init_state.

(** The body of a renaming request. *)
Definition phone : PyDict := {["display_name" := VStr "Phone"]}.

(** The renaming fails in storage for a reason other than absence. *)
Definition rename_fails : MoreCall -> option Exn :=
  fun c => match c with
           | store_update_device _ _ => Some (StoreError 500 "database unavailable")
           | _ => None
           end.

Definition with_reply (r : string -> string -> QueryResult) (e : Env) : Env :=
  {| server_name := server_name e; nested_str := nested_str e;
     faults := faults e; random := random e;
     remote_reply := r; rooms_for_user := rooms_for_user e;
     users_in_room := users_in_room e; client_ips := client_ips e |}.

(** What the server of [@b:remote] answers in the state
    [one_remote_device]. *)
Definition served_answer : UserDevices :=
  {| ud_user_id := "@b:remote";
     ud_stream_id := (plain_listing one_remote_device "@b:remote").1;
     ud_devices := (plain_listing one_remote_device "@b:remote").2 |}.

(** [home] receives that answer to its queries. *)
Definition federated_env : Env :=
  with_reply (fun _ _ => as_query_result served_answer) home_env.

(** The cache knows [@b:remote] at extremity 5 with the device [D7]. *)
Definition stale_cache : State :=
  set_remote_cache
    {["@b:remote" := {| stream_extremity := VStr "5";
                        rc_devices := [(VStr "D7", {["device_id" := VStr "D7"]})] |}]}
    init_state.

(** * Properties *)

(** ** Reasoning about handler code *)

Lemma effect_weaken {A} (I J : relation State) (m : M A) :
  (forall s s', I s s' -> J s s') -> effect I m -> effect J m.
Proof. intros H Hm s. apply H, Hm. Qed.

Lemma effect_bind_ret {A B} (I : relation State) (a : A) (k : A -> M B) :
  effect I (k a) -> effect I (bind (ret a) k).
Proof. intros H s. exact (H s). Qed.

Lemma effect_bind_raise {A B} (I : relation State) `{!Reflexive I} (e : Exn) (k : A -> M B) :
  effect I (bind (raise e) k).
Proof. intros s. simpl. reflexivity. Qed.

Section Effect.

Context (I : relation State) `{!PreOrder I}.

Lemma effect_ret {A} (a : A) : effect I (ret a).
Proof. intros s; simpl; reflexivity. Qed.

Lemma effect_raise {A} (e : Exn) : effect I (@raise A e).
Proof. intros s; simpl; reflexivity. Qed.

Lemma effect_get_state : effect I get_state.
Proof. intros s; simpl; reflexivity. Qed.

Lemma effect_modify (f : State -> State) : (forall s, I s (f s)) -> effect I (modify f).
Proof. intros H s; simpl; apply H. Qed.

Lemma effect_bind {A B} (m : M A) (k : A -> M B) :
  effect I m -> (forall a, effect I (k a)) -> effect I (bind m k).
Proof.
  intros Hm Hk s. unfold bind. specialize (Hm s).
  destruct (m s) as [s1 [a|e]]; simpl in *; [|exact Hm].
  etransitivity; [exact Hm | apply Hk].
Qed.

Lemma effect_try_except {A} (m : M A) (c : Exn -> bool) (h : Exn -> M A) :
  effect I m -> (forall e, effect I (h e)) -> effect I (try_except m c h).
Proof.
  intros Hm Hh s. unfold try_except. specialize (Hm s).
  destruct (m s) as [s1 [a|e]]; simpl in *; [exact Hm|].
  destruct (c e); simpl; [|exact Hm].
  etransitivity; [exact Hm | apply Hh].
Qed.

Lemma effect_for_each {A} (l : list A) (body : A -> M unit) :
  (forall x, effect I (body x)) -> effect I (for_each l body).
Proof.
  intros Hb. induction l as [|x l IH]; simpl.
  - apply effect_ret.
  - apply effect_bind; [apply Hb | intros _; exact IH].
Qed.

Lemma effect_fold_m {A B} (step : B -> A -> M B) (l : list A) (acc : B) :
  (forall b x, effect I (step b x)) -> effect I (fold_m step l acc).
Proof.
  intros Hs. revert acc. induction l as [|x l IH]; intros acc; simpl.
  - apply effect_ret.
  - apply effect_bind; [apply Hs | intros b; apply IH].
Qed.

Lemma effect_map_m {A B} (f : A -> M B) (l : list A) :
  (forall x, effect I (f x)) -> effect I (map_m f l).
Proof.
  intros Hf. induction l as [|x l IH]; simpl.
  - apply effect_ret.
  - apply effect_bind; [apply Hf | intros y].
    apply effect_bind; [exact IH | intros ys; apply effect_ret].
Qed.

Lemma effect_call (env : Env) (c : Call) :
  (forall s, I s (record_call c s)) -> effect I (call env c).
Proof.
  intros H. unfold call. apply effect_bind; [apply effect_modify, H | intros _].
  destruct (faults env c); [apply effect_raise | apply effect_ret].
Qed.

Lemma effect_getitem (d : PyDict) (k : string) : effect I (getitem d k).
Proof. unfold getitem. destruct (d !! k); [apply effect_ret | apply effect_raise]. Qed.

End Effect.

(** Decompose a goal [effect I m] along the structure of [m]. *)
Ltac effect_step :=
  lazymatch goal with
  | |- effect _ (bind _ _) => apply effect_bind; [typeclasses eauto | | intros ?]
  | |- effect _ (ret _) => apply effect_ret; typeclasses eauto
  | |- effect _ (raise _) => apply effect_raise; typeclasses eauto
  | |- effect _ get_state => apply effect_get_state; typeclasses eauto
  | |- effect _ (getitem _ _) => apply effect_getitem; typeclasses eauto
  | |- effect _ (try_except _ _ _) => apply effect_try_except; [typeclasses eauto | | intros ?]
  | |- effect _ (for_each _ _) => apply effect_for_each; [typeclasses eauto | intros ?]
  | |- effect _ (fold_m _ _ _) => apply effect_fold_m; [typeclasses eauto | intros ? ?]
  | |- effect _ (map_m _ _) => apply effect_map_m; [typeclasses eauto | intros ?]
  | |- effect _ (call _ _) => apply effect_call; [typeclasses eauto | intros ?]
  | |- effect _ (modify _) => apply effect_modify; intros ?
  | |- effect _ (if ?b then _ else _) => destruct b
  | |- effect _ (match ?x with _ => _ end) => destruct x
  end.

Lemma returns_ret {A} (a : A) (P : A -> Prop) : P a -> returns (ret a) P.
Proof. intros H s; by exists s, a. Qed.

Lemma returns_get_state : returns get_state any.
Proof. intros s; by exists s, s. Qed.

Lemma returns_modify f : returns (modify f) any.
Proof. intros s; by exists (f s), tt. Qed.

Lemma returns_bind {A B} (m : M A) (k : A -> M B) (P : A -> Prop) (Q : B -> Prop) :
  returns m P -> (forall a, P a -> returns (k a) Q) -> returns (bind m k) Q.
Proof.
  intros Hm Hk s. unfold bind. destruct (Hm s) as (s1 & a & -> & Ha). by apply Hk.
Qed.

Lemma returns_any {A} (m : M A) (P : A -> Prop) : returns m P -> returns m any.
Proof. intros H s. destruct (H s) as (s' & a & E & _). by exists s', a. Qed.

Lemma returns_call env c : faults env c = None -> returns (call env c) any.
Proof. intros H s. unfold call, bind; simpl. rewrite H. by eexists _, _. Qed.

Lemma returns_for_each {A} (l : list A) (body : A -> M unit) :
  (forall x, x ∈ l -> returns (body x) any) -> returns (for_each l body) any.
Proof.
  induction l as [|x l IH]; intros Hb; simpl.
  - by apply returns_ret.
  - eapply returns_bind; [apply Hb; left | intros _ _; apply IH].
    intros y Hy; apply Hb; by right.
Qed.

Lemma returns_fold_m {A B} (step : B -> A -> M B) (l : list A) (acc : B) :
  (forall b x, x ∈ l -> returns (step b x) any) -> returns (fold_m step l acc) any.
Proof.
  revert acc. induction l as [|x l IH]; intros acc Hs; simpl.
  - by apply returns_ret.
  - eapply returns_bind; [apply Hs; left | intros b _; apply IH].
    intros b' y Hy; apply Hs; by right.
Qed.

Lemma returns_map_m {A B} (f : A -> M B) (l : list A) :
  (forall x, x ∈ l -> returns (f x) any) -> returns (map_m f l) any.
Proof.
  induction l as [|x l IH]; intros Hf; simpl.
  - by apply returns_ret.
  - eapply returns_bind; [apply Hf; left | intros y _].
    eapply returns_bind; [apply IH | intros ys _; by apply returns_ret].
    intros z Hz; apply Hf; by right.
Qed.

#[global] Instance same_store_preorder : PreOrder same_store.
Proof.
  split.
  - intros s; unfold same_store; tauto.
  - intros a b c (?&?&?&?&?) (?&?&?&?&?); unfold same_store; repeat split; congruence.
Qed.

#[global] Instance same_stream_preorder : PreOrder same_stream.
Proof.
  split.
  - intros s; unfold same_stream; tauto.
  - intros a b c (?&?&?&?) (?&?&?&?); unfold same_stream; repeat split; congruence.
Qed.

#[global] Instance same_changes_preorder : PreOrder same_changes.
Proof.
  split.
  - intros s; unfold same_changes; tauto.
  - intros a b c (?&?&?) (?&?&?); unfold same_changes; repeat split; congruence.
Qed.

#[global] Instance same_data_preorder : PreOrder same_data.
Proof.
  split.
  - intros s; split; reflexivity.
  - intros a b c [? ?] [? ?]; split; etransitivity; eauto.
Qed.

#[global] Instance trace_of_preorder Q : PreOrder (trace_of Q).
Proof.
  split.
  - intros s; exists []; split; [by rewrite app_nil_r | done].
  - intros a b c (d1 & H1 & F1) (d2 & H2 & F2). exists (d1 ++ d2). split.
    + rewrite H2, H1. by rewrite <- app_assoc.
    + rewrite forallb_app, F1, F2. done.
Qed.

Lemma same_store_record_call c s : same_store s (record_call c s).
Proof. unfold same_store; simpl; tauto. Qed.

Lemma same_stream_record_call c s : same_stream s (record_call c s).
Proof. unfold same_stream; simpl; tauto. Qed.

Lemma same_changes_record_call c s : same_changes s (record_call c s).
Proof. unfold same_changes; simpl; tauto. Qed.

Lemma same_data_changes s s' : same_data s s' -> same_changes s s'.
Proof. intros [_ (?&?&?&?)]; unfold same_changes; tauto. Qed.

Lemma same_data_record_call c s : same_data s (record_call c s).
Proof. split; [apply same_store_record_call | apply same_stream_record_call]. Qed.



(** ** What a notification does *)

Section Notify.

Variable env : Env.

Lemma interested_hosts_data u rooms : effect same_data (interested_hosts env u rooms).
Proof.
  unfold interested_hosts, is_mine_id, get_current_user_in_room, get_domain_from_id.
  repeat effect_step; apply same_data_record_call.
Qed.

Lemma notify_store u ids : effect same_store (notify_device_update env u ids).
Proof.
  unfold notify_device_update, get_rooms_for_user, add_device_change_to_streams,
    on_new_event, send_device_messages.
  repeat effect_step;
    try apply same_store_record_call;
    try (eapply effect_weaken; [|apply interested_hosts_data]; intros ? ? [? ?]; done);
    try (unfold same_store; simpl; tauto).
Qed.


Lemma pokes_changes (hosts : list string) :
  effect same_changes (for_each hosts (send_device_messages env)).
Proof.
  unfold send_device_messages. repeat effect_step.
  - apply same_changes_record_call.
  - unfold same_changes; simpl; tauto.
Qed.

Lemma notify_post u ids s s' :
  notify_device_update env u ids s = (s', Ret tt) -> notified env u ids s s'.
Proof.
  unfold notify_device_update. intros H.
  unfold bind at 1 in H.
  destruct (get_rooms_for_user env u s) as [s1 [rooms|e]] eqn:E1; [|done].
  assert (rooms = default [] (rooms_for_user env !! u) /\ same_data s s1) as [-> D1].
  { unfold get_rooms_for_user, call, bind in E1; simpl in E1.
    destruct (faults env _); unfold ret, raise in E1; simplify_eq.
    split; [done | apply same_data_record_call]. }
  unfold bind at 1 in H.
  destruct (interested_hosts env u _ s1) as [s2 [hosts|e]] eqn:E2; [|done].
  pose proof (interested_hosts_data u (default [] (rooms_for_user env !! u)) s1) as D2.
  rewrite E2 in D2; simpl in D2.
  assert (D : same_changes s s2).
  { apply same_data_changes. etransitivity; eauto. }
  destruct D as (Dp & Dc & Dn).
  unfold add_device_change_to_streams, on_new_event, call in H.
  unfold bind at 1 2 3 4 5 in H; simpl in H.
  destruct (faults env (store_add_device_change_to_streams _ _)); [done|].
  unfold bind at 1 2 3 in H; simpl in H.
  destruct (faults env (notifier_on_new_event _ _)); [done|].
  unfold ret at 1, modify at 1 in H; simpl in H.
  match type of H with (if _ then ?m1 else ?m2) ?s0 = _ =>
    assert (Dk : same_changes s0 s') end.
  { destruct (decide (hosts ≠ ∅)).
    - pose proof (pokes_changes (elements hosts)) as K.
      match type of H with ?m ?s0 = _ => specialize (K s0) end.
      by rewrite H in K.
    - simpl in H. injection H as <-. reflexivity. }
  destruct Dk as (Kp & Kc & Kn); simpl in *.
  exists (elements hosts). rewrite Kp, Kc, Kn, Dp, Dc, Dn. done.
Qed.

Lemma get_rooms_for_user_returns u :
  no_faults env ->
  returns (get_rooms_for_user env u) (fun r => r = default [] (rooms_for_user env !! u)).
Proof.
  intros Hf. unfold get_rooms_for_user.
  eapply returns_bind; [apply returns_call, Hf | intros _ _; by apply returns_ret].
Qed.

Lemma interested_hosts_returns u :
  no_faults env -> valid_ids env u ->
  returns (interested_hosts env u (default [] (rooms_for_user env !! u))) any.
Proof.
  intros Hf [[d Hd] Hv]. unfold interested_hosts, is_mine_id. rewrite Hd.
  eapply returns_bind; [by apply (returns_ret _ any) | intros mine _].
  destruct mine; [|by apply returns_ret].
  eapply returns_bind; [|intros hosts _; by apply returns_ret].
  apply returns_fold_m. intros hosts room Hroom. unfold get_current_user_in_room.
  eapply returns_bind.
  { eapply returns_bind; [apply returns_call, Hf | intros _ _].
    apply (returns_ret _ (fun us => us = default [] (users_in_room env !! room))).
    reflexivity. }
  intros users ->.
  eapply returns_bind; [|intros ds _; by apply returns_ret].
  apply returns_map_m. intros x Hx. unfold get_domain_from_id.
  destruct (Hv room x Hroom Hx) as [dx ->]. by apply returns_ret.
Qed.

Lemma notify_returns u ids :
  no_faults env -> valid_ids env u -> returns (notify_device_update env u ids) any.
Proof.
  intros Hf Hv. unfold notify_device_update.
  eapply returns_bind; [by apply get_rooms_for_user_returns | intros rooms0 ->].
  eapply returns_bind; [by apply interested_hosts_returns | intros hosts _].
  eapply returns_bind.
  { unfold add_device_change_to_streams.
    eapply returns_bind; [apply returns_call, Hf | intros _ _].
    eapply returns_bind; [apply returns_get_state | intros s0 _].
    eapply returns_bind; [apply returns_modify | intros _ _].
    by apply (returns_ret _ any). }
  intros position _. eapply returns_bind.
  { unfold on_new_event.
    eapply returns_bind; [apply returns_call, Hf | intros _ _; apply returns_modify]. }
  intros _ _. destruct (decide (hosts ≠ ∅)); [|by apply returns_ret].
  apply returns_for_each. intros h _. unfold send_device_messages.
  eapply returns_bind; [apply returns_call, Hf | intros _ _; apply returns_modify].
Qed.

End Notify.

(** ** Registration *)

Section Registration.

Variable env : Env.

Lemma notified_from u ids s0 s s' :
  same_changes s0 s -> notified env u ids s s' -> notified env u ids s0 s'.
Proof.
  intros (Hp & Hc & Hn) (hosts & ? & ? & ?). exists hosts.
  rewrite <- Hp, <- Hc, <- Hn. done.
Qed.

Lemma device_exists_store (s s' : State) u d :
  devices s' = devices s -> device_exists s u d -> device_exists s' u d.
Proof. unfold device_exists, user_devices. by intros ->. Qed.

(** What one [store_device] call does. *)
Lemma store_device_known u d name s :
  faults env (store_store_device u d) = None ->
  device_exists s u d ->
  store_device env u d name s = (record_call (store_store_device u d) s, Ret false).
Proof.
  intros Hf [x Hx]. unfold store_device, call, bind; simpl. rewrite Hf; simpl.
  change (user_devices (record_call (store_store_device u d) s) u) with (user_devices s u).
  by rewrite Hx.
Qed.

Lemma store_device_fresh u d name s :
  faults env (store_store_device u d) = None ->
  ~ device_exists s u d ->
  store_device env u d name s =
    (set_devices (<[u := <[d := name]> (user_devices s u)]> (devices s))
       (record_call (store_store_device u d) s), Ret true).
Proof.
  intros Hf Hx. unfold store_device, call, bind; simpl. rewrite Hf; simpl.
  change (user_devices (record_call (store_store_device u d) s) u) with (user_devices s u).
  destruct (user_devices s u !! d) eqn:E; [|done].
  exfalso; apply Hx; by eexists.
Qed.

Lemma store_device_inv u d name s s' b :
  store_device env u d name s = (s', Ret b) ->
  faults env (store_store_device u d) = None /\
  device_exists s' u d /\
  (if b then ~ device_exists s u d else device_exists s u d) /\
  same_changes s s' /\ rng_pos s' = rng_pos s /\
  calls s' = calls s ++ [store_store_device u d] /\
  (b = false -> s' = record_call (store_store_device u d) s).
Proof.
  unfold store_device, call, bind, ret, raise, modify, get_state; simpl.
  destruct (faults env (store_store_device u d)) eqn:Hf; simpl; [done|].
  change (user_devices (record_call (store_store_device u d) s) u) with (user_devices s u).
  destruct (user_devices s u !! d) eqn:E; simpl; intros H; simplify_eq.
  - repeat split; try done.
    + unfold device_exists.
      change (user_devices (record_call (store_store_device u d) s) u)
        with (user_devices s u). by rewrite E.
    + unfold device_exists. by rewrite E.
  - repeat split; try done.
    + unfold device_exists, user_devices; simpl.
      rewrite lookup_insert_eq; simpl. rewrite lookup_insert_eq. by eexists.
    + unfold device_exists. rewrite E. by intros [? ?].
Qed.

Lemma notify_keeps_device u ids s s' r v d :
  notify_device_update env u ids s = (s', r) ->
  device_exists s v d -> device_exists s' v d.
Proof.
  intros H. pose proof (notify_store env u ids s) as K. rewrite H in K.
  destruct K as (_ & Kd & _). simpl in Kd. by apply device_exists_store.
Qed.

(** C6, first half: a call with an explicit device id that returns leaves
    the device registered. *)
Lemma check_device_registered_explicit u d name s s1 d1 :
  check_device_registered env u (Some d) name s = (s1, Ret d1) ->
  d1 = d /\ faults env (store_store_device u d) = None /\ device_exists s1 u d.
Proof.
  unfold check_device_registered. unfold bind at 1.
  destruct (store_device env u d name s) as [s0 [b|e]] eqn:E; [|done].
  apply store_device_inv in E as (Hf & Hx & _).
  unfold bind. destruct b.
  - destruct (notify_device_update env u [VStr d] s0) as [s2 [[]|e]] eqn:En; [|done].
    unfold ret. intros H; simplify_eq. repeat split; try done.
    eapply notify_keeps_device; eauto.
  - unfold ret. intros H; simplify_eq. done.
Qed.

(** C6: registering an already-known explicit device id again returns the
    same id, makes one [store_device] call and changes nothing else: no
    device is written and no notification is emitted. *)
Theorem check_device_registered_idempotent u d name name' s s1 d1 :
  check_device_registered env u (Some d) name s = (s1, Ret d1) ->
  d1 = d /\
  exists s2,
    check_device_registered env u (Some d) name' s1 = (s2, Ret d) /\
    same_data s1 s2 /\
    calls s2 = calls s1 ++ [store_store_device u d].
Proof.
  intros H. apply check_device_registered_explicit in H as (-> & Hf & Hx).
  split; [done|]. exists (record_call (store_store_device u d) s1).
  unfold check_device_registered, bind.
  rewrite (store_device_known _ _ _ _ Hf Hx); simpl.
  repeat split; done.
Qed.

Lemma random_string_run n s :
  random_string env n s = (set_rng_pos (S (rng_pos s)) s, Ret (random env (rng_pos s))).
Proof. reflexivity. Qed.

Lemma candidate_0 s : candidate env s 0 = upper (random env (rng_pos s)).
Proof. unfold candidate. by rewrite Nat.add_0_r. Qed.

Lemma candidate_next c s i :
  candidate env (record_call c (set_rng_pos (S (rng_pos s)) s)) i = candidate env s (S i).
Proof. unfold candidate; simpl. by rewrite Nat.add_succ_r. Qed.

(** Every candidate env collides: the loop gives up after [n] attempts. *)
Lemma autogen_exhausted n u name s :
  (forall d, faults env (store_store_device u d) = None) ->
  (forall i, (i < n)%nat -> device_exists s u (candidate env s i)) ->
  exists s',
    autogen_device_id env n u name s
      = (s', Raise (StoreError 500 "Couldn't generate a device ID.")) /\
    calls s' = calls s ++ map (fun i => store_store_device u (candidate env s i)) (seq 0 n) /\
    rng_pos s' = (rng_pos s + n)%nat /\
    devices s' = devices s /\ same_changes s s'.
Proof.
  intros Hf. revert s. induction n as [|n IH]; intros s Hall.
  - exists s. simpl. rewrite app_nil_r, Nat.add_0_r. repeat split; done.
  - simpl. unfold bind at 1. rewrite random_string_run. unfold bind at 1.
    rewrite store_device_known; [|apply Hf|].
    2:{ rewrite <- candidate_0. apply (Hall 0%nat). lia. }
    set (c := store_store_device u (upper (random env (rng_pos s)))).
    destruct (IH (record_call c (set_rng_pos (S (rng_pos s)) s)))
      as (s' & E & Hc & Hr & Hd & Hs).
    { intros i Hi. rewrite candidate_next. apply (Hall (S i)). lia. }
    exists s'. split; [exact E|]. simpl in *. repeat split.
    + rewrite Hc, <- app_assoc. simpl. f_equal. f_equal.
      * unfold c. by rewrite candidate_0.
      * rewrite <- seq_shift, map_map. apply map_ext. intros i.
        by rewrite candidate_next.
    + lia.
    + exact Hd.
    + apply Hs.
    + apply Hs.
    + apply Hs.
Qed.

(** The loop returns: the id is the first fresh candidate env, it is
    registered, and one notification for it is recorded. *)
Lemma autogen_returned n u name s s' d :
  autogen_device_id env n u name s = (s', Ret d) ->
  exists k, (k < n)%nat /\ d = candidate env s k /\
    (forall i, (i < k)%nat -> device_exists s u (candidate env s i)) /\
    ~ device_exists s u d /\ device_exists s' u d /\
    notified env u [VStr d] s s'.
Proof.
  revert s. induction n as [|n IH]; intros s; simpl; [done|].
  unfold bind at 1. rewrite random_string_run. unfold bind at 1.
  destruct (store_device env u _ name _) as [s2 [b|e]] eqn:E; [|done].
  apply store_device_inv in E as (Hf & Hx & Hb & Hs & Hr & Hc & Heq).
  destruct b.
  - unfold bind, ret.
    destruct (notify_device_update env u _ s2) as [s3 [[]|e]] eqn:En; [|done].
    intros H; simplify_eq. exists 0%nat. rewrite candidate_0.
    split; [lia|]. split; [done|]. split; [intros i Hi; lia|].
    split; [exact Hb|]. split.
    + eapply notify_keeps_device; eauto.
    + eapply notified_from; [|by apply notify_post]. exact Hs.
  - intros H. rewrite (Heq eq_refl) in H.
    apply IH in H as (k & Hk & -> & Hprev & Hfresh & Hreg & Hn).
    exists (S k). rewrite !candidate_next in *.
    split; [lia|]. split; [done|]. split.
    { intros [|i] Hi.
      - rewrite candidate_0. exact Hb.
      - rewrite <- candidate_next with (c := store_store_device u (upper (random env (rng_pos s)))).
        apply Hprev. lia. }
    split; [exact Hfresh|]. split; [exact Hreg|].
    eapply notified_from; [|exact Hn]. unfold same_changes; simpl; tauto.
Qed.

(** A fresh candidate env among the first [n] is found and returned. *)
Lemma autogen_finds n u name s k :
  no_faults env -> valid_ids env u -> (k < n)%nat ->
  (forall i, (i < k)%nat -> device_exists s u (candidate env s i)) ->
  ~ device_exists s u (candidate env s k) ->
  exists s', autogen_device_id env n u name s = (s', Ret (candidate env s k)).
Proof.
  intros Hf Hv. revert s k. induction n as [|n IH]; intros s k Hk Hprev Hfresh; [lia|].
  simpl. unfold bind at 1. rewrite random_string_run. unfold bind at 1.
  destruct k as [|k].
  - rewrite candidate_0 in *.
    rewrite store_device_fresh; [|apply Hf|exact Hfresh].
    unfold bind.
    match goal with |- context [notify_device_update env u ?ids ?s0] =>
      destruct (notify_returns env u ids Hf Hv s0) as (s3 & [] & -> & _) end.
    by eexists.
  - rewrite store_device_known; [|apply Hf|].
    2:{ rewrite <- candidate_0. apply (Hprev 0%nat). lia. }
    set (c := store_store_device u (upper (random env (rng_pos s)))).
    destruct (IH (record_call c (set_rng_pos (S (rng_pos s)) s)) k) as (s' & E).
    + lia.
    + intros i Hi. rewrite candidate_next. apply Hprev. lia.
    + rewrite candidate_next. exact Hfresh.
    + exists s'. rewrite E. by rewrite candidate_next.
Qed.

(** C7: without a device id, [check_device_registered] tries generated ids.
    When every candidate env collides it raises the generation error after
    exactly five [store_device] attempts and five draws, writing nothing;
    when it returns, the id was not registered before, is registered after,
    and one notification for that single device is recorded; and it does
    return when one of the first five candidates is fresh. *)
Theorem check_device_registered_autogen u name s :
  ((forall d, faults env (store_store_device u d) = None) ->
   (forall i, (i < 5)%nat -> device_exists s u (candidate env s i)) ->
   exists s',
     check_device_registered env u None name s
       = (s', Raise (StoreError 500 "Couldn't generate a device ID.")) /\
     calls s' = calls s ++ map (fun i => store_store_device u (candidate env s i)) (seq 0 5) /\
     rng_pos s' = (rng_pos s + 5)%nat /\
     devices s' = devices s /\ same_changes s s') /\
  (forall s' d,
     check_device_registered env u None name s = (s', Ret d) ->
     ~ device_exists s u d /\ device_exists s' u d /\ notified env u [VStr d] s s') /\
  (no_faults env -> valid_ids env u ->
   forall k, (k < 5)%nat ->
     (forall i, (i < k)%nat -> device_exists s u (candidate env s i)) ->
     ~ device_exists s u (candidate env s k) ->
     exists s', check_device_registered env u None name s = (s', Ret (candidate env s k))).
Proof.
  unfold check_device_registered. split; [|split].
  - apply autogen_exhausted.
  - intros s' d H. apply autogen_returned in H as (k & _ & _ & _ & ? & ? & ?). done.
  - intros Hf Hv k. by apply autogen_finds.
Qed.

End Registration.

(** ** Reading and deleting devices *)

Section Devices.

Variable env : Env.

Lemma call_run c s : faults env c = None -> call env c s = (record_call c s, Ret tt).
Proof. intros H. unfold call, bind; simpl. by rewrite H. Qed.

Lemma call_fails c e s : faults env c = Some e -> call env c s = (record_call c s, Raise e).
Proof. intros H. unfold call, bind; simpl. by rewrite H. Qed.

Lemma get_rooms_for_user_run u s :
  faults env (store_get_rooms_for_user u) = None ->
  get_rooms_for_user env u s
    = (record_call (store_get_rooms_for_user u) s,
       Ret (default [] (rooms_for_user env !! u))).
Proof. intros Hf. unfold get_rooms_for_user, bind. by rewrite call_run. Qed.

Lemma after_delete_absent u d s : ~ device_exists (after_delete u d s) u d.
Proof.
  unfold after_delete, device_exists, user_devices; simpl.
  destruct (default ∅ (devices s !! u) !! d) eqn:E; simpl.
  - rewrite lookup_insert_eq; simpl. rewrite lookup_delete_eq. by intros [? ?].
  - rewrite E. by intros [? ?].
Qed.

Lemma after_delete_others u d s v d' :
  (v, d') <> (u, d) ->
  user_devices (after_delete u d s) v !! d' = user_devices s v !! d'.
Proof.
  intros Hne. unfold after_delete, user_devices; simpl.
  destruct (default ∅ (devices s !! u) !! d) eqn:E; simpl; [|done].
  destruct (decide (u = v)) as [->|Huv].
  - rewrite lookup_insert_eq; simpl. rewrite lookup_delete_ne; [done|congruence].
  - by rewrite lookup_insert_ne.
Qed.

(** The storage part of [delete_device] runs to its end whether or not
    the device exists. *)
Lemma delete_device_storage u d s :
  no_faults env ->
  exists s1,
    (try_except (delete_device_row env u d) is_StoreError
       (fun e => match e with
                 | StoreError code _ => if (code =? 404)%Z then ret tt else raise e
                 | _ => raise e
                 end) ;;;
     user_delete_access_tokens env u d ;;;
     delete_e2e_keys_by_device env u d)%py s = (s1, Ret tt) /\
    same_changes s s1 /\
    devices s1 = devices (after_delete u d s) /\
    access_tokens s1 = access_tokens (after_delete u d s) /\
    e2e_keys s1 = e2e_keys (after_delete u d s).
Proof.
  intros Hf.
  unfold try_except, delete_device_row, user_delete_access_tokens,
    delete_e2e_keys_by_device, after_delete.
  unfold bind. rewrite !call_run by apply Hf. simpl.
  change (user_devices (record_call (store_delete_device u d) s) u)
    with (user_devices s u).
  destruct (user_devices s u !! d) eqn:E; simpl;
    repeat (rewrite call_run by apply Hf; simpl);
    eexists; (split; [reflexivity|]); unfold same_changes; simpl; tauto.
Qed.

(** C3, as the code has it: with working collaborators [delete_device]
    returns, and whether or not the device existed before, it is absent
    afterwards, other devices are untouched, the tokens scoped to the device
    are revoked, its key material is deleted, and exactly one change
    notification carrying that device id is recorded. *)
Theorem delete_device_notifies_always u d s :
  no_faults env -> valid_ids env u ->
  exists s',
    delete_device env u d s = (s', Ret tt) /\
    ~ device_exists s' u d /\
    (forall v d', (v, d') <> (u, d) -> user_devices s' v !! d' = user_devices s v !! d') /\
    access_tokens s' = filter (fun t => ¬ (t.1.1 = u ∧ t.1.2 = d)) (access_tokens s) /\
    e2e_keys s' = delete (u, d) (e2e_keys s) /\
    notified env u [VStr d] s s'.
Proof.
  intros Hf Hv.
  destruct (delete_device_storage u d s Hf) as (s1 & E1 & Hs & Hd & Ht & Hk).
  destruct (notify_returns env u [VStr d] Hf Hv s1) as (s' & [] & En & _).
  pose proof (notify_store env u [VStr d] s1) as K. rewrite En in K.
  destruct K as (_ & Kd & Kt & Kk & _). simpl in *.
  exists s'. split.
  { unfold delete_device.
    unfold bind in E1 |- *.
    destruct (try_except _ _ _ s) as [sa [[]|?]]; [|done].
    destruct (user_delete_access_tokens env u d sa) as [sb [[]|?]]; [|done].
    destruct (delete_e2e_keys_by_device env u d sb) as [sc [[]|?]]; [|done].
    simplify_eq. exact En. }
  split.
  { intros Hx. apply (after_delete_absent u d s).
    revert Hx. unfold device_exists, user_devices. by rewrite Kd, Hd. }
  split.
  { intros v d' Hne. rewrite <- (after_delete_others u d s v d' Hne).
    unfold user_devices. by rewrite Kd, Hd. }
  split; [by rewrite Kt, Ht|]. split; [by rewrite Kk, Hk|].
  eapply notified_from; [exact Hs | by apply notify_post].
Qed.

(** *** get_device *)

Lemma device_row_user_id u d name : device_row u d name !! "user_id" = Some (VStr u).
Proof. unfold device_row. by rewrite lookup_insert_eq. Qed.

Lemma device_row_device_id u d name : device_row u d name !! "device_id" = Some (VStr d).
Proof.
  unfold device_row. rewrite lookup_insert_ne by done. by rewrite lookup_insert_eq.
Qed.

Lemma update_from_client_ips_row u d name (devs : list (string * string)) s :
  (u, d) ∈ devs ->
  _update_device_from_client_ips (device_row u d name)
    (filter (fun kv => kv.1 ∈ devs) (client_ips env)) s
  = (s, Ret (with_last_seen env u d (device_row u d name))).
Proof.
  intros Hin. unfold _update_device_from_client_ips, getitem, bind.
  rewrite device_row_user_id, device_row_device_id; simpl.
  unfold with_last_seen, seen_field. rewrite map_lookup_filter.
  destruct (client_ips env !! (u, d)) as [ip|]; simpl; [|done].
  rewrite option_guard_True by done. done.
Qed.

Lemma get_device_row_run u d s :
  faults env (store_get_device u d) = None ->
  get_device_row env u d s =
    (record_call (store_get_device u d) s,
     match user_devices s u !! d with
     | Some name => Ret (device_row u d name)
     | None => Raise (StoreError 404 "No row found")
     end).
Proof.
  intros Hf. unfold get_device_row, bind. rewrite call_run by done. simpl.
  change (user_devices (record_call (store_get_device u d) s) u) with (user_devices s u).
  by destruct (user_devices s u !! d).
Qed.

(** A registered device is returned with its last-seen fields. *)
Lemma get_device_returns u d name s :
  faults env (store_get_device u d) = None ->
  faults env (store_get_last_client_ip_by_device [(u, d)]) = None ->
  user_devices s u !! d = Some name ->
  exists s', get_device env u d s = (s', Ret (with_last_seen env u d (device_row u d name))).
Proof.
  intros Hf1 Hf2 Hx. unfold get_device, try_except, get_last_client_ip_by_device.
  unfold bind. rewrite get_device_row_run, Hx by done. rewrite call_run by done. simpl.
  rewrite update_from_client_ips_row by (by left). by eexists.
Qed.

(** An absent device is reported as [NotFoundError]. *)
Lemma get_device_absent u d s :
  faults env (store_get_device u d) = None ->
  user_devices s u !! d = None ->
  get_device env u d s = (record_call (store_get_device u d) s, Raise NotFoundError).
Proof.
  intros Hf Hx. unfold get_device, try_except, bind.
  by rewrite get_device_row_run, Hx by done.
Qed.

(** Whatever [get_device] returns is a registered device with its
    last-seen fields. *)
Lemma get_device_returned u d s s' dev :
  get_device env u d s = (s', Ret dev) ->
  exists name, user_devices s u !! d = Some name /\
    dev = with_last_seen env u d (device_row u d name).
Proof.
  unfold get_device, try_except, get_last_client_ip_by_device, get_device_row.
  unfold bind at 1 2 3. unfold call at 1. unfold bind at 1; simpl.
  destruct (faults env (store_get_device u d)) as [e|]; simpl.
  { destruct (is_StoreError e); done. }
  change (user_devices (record_call (store_get_device u d) s) u) with (user_devices s u).
  destruct (user_devices s u !! d) as [name|] eqn:Hx; simpl; [|done].
  unfold bind at 1 2. unfold call; simpl. unfold bind at 1; simpl.
  destruct (faults env (store_get_last_client_ip_by_device _)); simpl; [done|].
  rewrite update_from_client_ips_row by (by left).
  intros H; simplify_eq. by exists name.
Qed.

(** C8, as the code has it: whatever [StoreError] the storage raises for
    the lookup, also one with code 500 for a device that exists,
    [get_device] replaces it by [NotFoundError]. *)
Theorem get_device_masks_store_error u d code msg s :
  faults env (store_get_device u d) = Some (StoreError code msg) ->
  get_device env u d s = (record_call (store_get_device u d) s, Raise NotFoundError).
Proof.
  intros Hf. unfold get_device, try_except, get_device_row.
  unfold bind. by rewrite call_fails with (e := StoreError code msg).
Qed.

(** The sibling path: [delete_device] lets a [StoreError] through unless
    its code is 404. *)
Lemma delete_device_propagates u d code msg s :
  faults env (store_delete_device u d) = Some (StoreError code msg) ->
  code <> 404 ->
  delete_device env u d s
    = (record_call (store_delete_device u d) s, Raise (StoreError code msg)).
Proof.
  intros Hf Hc. unfold delete_device, try_except, delete_device_row.
  unfold bind. rewrite call_fails with (e := StoreError code msg) by done. simpl.
  destruct (code =? 404)%Z eqn:E; [lia|done].
Qed.

(** *** get_devices_by_user *)

Lemma augment_device_row u d name :
  augment_row env (device_row u d name) = with_last_seen env u d (device_row u d name).
Proof. unfold augment_row. by rewrite device_row_user_id, device_row_device_id. Qed.

Lemma map_m_pure {A B} (f : A -> M B) (g : A -> B) (l : list A) s :
  (forall x, x ∈ l -> forall s, f x s = (s, Ret (g x))) ->
  map_m f l s = (s, Ret (g <$> l)).
Proof.
  induction l as [|x l IH]; intros Hf; simpl; [done|].
  unfold bind. rewrite Hf by left. rewrite IH; [done|].
  intros y Hy. apply Hf. by right.
Qed.

Lemma elem_of_device_rows u s d row :
  (d, row) ∈ device_rows u s <->
  exists name, user_devices s u !! d = Some name /\ row = device_row u d name.
Proof.
  unfold device_rows. rewrite elem_of_map_to_list, map_lookup_imap.
  destruct (user_devices s u !! d) as [name|]; simpl.
  - split; [intros H; simplify_eq; by eexists | intros (n & H & ->); by simplify_eq].
  - split; [done | by intros (n & H & _)].
Qed.

Lemma get_devices_by_user_run u s :
  faults env (store_get_devices_by_user u) = None ->
  faults env (store_get_last_client_ip_by_device
                (map (fun d => (u, d)) (device_rows u s).*1)) = None ->
  exists s',
    get_devices_by_user env u s = (s', Ret (augment_row env <$> (device_rows u s).*2)).
Proof.
  intros Hf1 Hf2.
  unfold get_devices_by_user, get_devices_by_user_rows, get_last_client_ip_by_device.
  unfold bind at 1 2 3. rewrite call_run by done. simpl.
  change (user_devices (record_call (store_get_devices_by_user u) s) u)
    with (user_devices s u).
  fold (device_rows u s).
  unfold bind at 1 2. rewrite call_run by done. simpl.
  eexists. apply map_m_pure.
  intros row Hrow s0. apply list_elem_of_fmap in Hrow as ([d row'] & -> & Hin).
  pose proof Hin as Hin'. apply elem_of_device_rows in Hin' as (name & _ & ->). simpl.
  rewrite augment_device_row. apply update_from_client_ips_row.
  apply list_elem_of_In, in_map_iff. exists d. split; [done|].
  apply list_elem_of_In, list_elem_of_fmap. by exists (d, device_row u d name).
Qed.

Lemma get_devices_by_user_returned u s s' devs :
  get_devices_by_user env u s = (s', Ret devs) ->
  devs = augment_row env <$> (device_rows u s).*2.
Proof.
  intros H.
  destruct (faults env (store_get_devices_by_user u)) as [e|] eqn:Hf1.
  { revert H. unfold get_devices_by_user, get_devices_by_user_rows.
    unfold bind. by rewrite call_fails with (e := e). }
  destruct (faults env (store_get_last_client_ip_by_device
                          (map (fun d => (u, d)) (device_rows u s).*1))) as [e|] eqn:Hf2.
  { revert H.
    unfold get_devices_by_user, get_devices_by_user_rows, get_last_client_ip_by_device.
    unfold bind at 1 2 3. rewrite call_run by done. simpl.
    change (user_devices (record_call (store_get_devices_by_user u) s) u)
      with (user_devices s u).
    fold (device_rows u s).
    unfold bind at 1 2. by rewrite call_fails with (e := e). }
  destruct (get_devices_by_user_run u s Hf1 Hf2) as (s2 & E).
  rewrite E in H. by simplify_eq.
Qed.

Lemma elem_of_augmented_rows u s dev :
  dev ∈ augment_row env <$> (device_rows u s).*2 <->
  exists d name, user_devices s u !! d = Some name /\
    dev = with_last_seen env u d (device_row u d name).
Proof.
  rewrite list_elem_of_fmap. split.
  - intros (row & -> & Hrow). apply list_elem_of_fmap in Hrow as ([d row'] & -> & Hin).
    apply elem_of_device_rows in Hin as (name & Hx & ->). simpl.
    exists d, name. by rewrite augment_device_row.
  - intros (d & name & Hx & ->). exists (device_row u d name).
    rewrite augment_device_row. split; [done|].
    apply list_elem_of_fmap. exists (d, device_row u d name). split; [done|].
    apply elem_of_device_rows. by exists name.
Qed.

(** The two fields: what is read for them, and that nothing else of the
    row changes. *)
Lemma with_last_seen_fields u d row :
  with_last_seen env u d row !! "last_seen_ts" = Some (seen_field env u d "last_seen") /\
  with_last_seen env u d row !! "last_seen_ip" = Some (seen_field env u d "ip") /\
  forall k, k <> "last_seen_ts" -> k <> "last_seen_ip" ->
    with_last_seen env u d row !! k = row !! k.
Proof.
  unfold with_last_seen. split; [|split].
  - rewrite lookup_insert_ne by done. by rewrite lookup_insert_eq.
  - by rewrite lookup_insert_eq.
  - intros k H1 H2. by rewrite !lookup_insert_ne.
Qed.

Lemma seen_field_no_row u d column :
  client_ips env !! (u, d) = None -> seen_field env u d column = VNone.
Proof. unfold seen_field. by intros ->. Qed.

Lemma seen_field_row u d column ip :
  client_ips env !! (u, d) = Some ip ->
  seen_field env u d column = default VNone (ip !! column).
Proof. unfold seen_field. by intros ->. Qed.

(** C10: a record returned by [get_device] or [get_devices_by_user] is a
    stored device row with [last_seen_ts] and [last_seen_ip] set from the
    columns [last_seen] and [ip] of the client-IP row of that
    (user_id, device_id), or to [None] when there is no such row, the other
    fields of the row being kept; and with a working storage both calls do
    return, each registered device being among the records. *)
Theorem devices_carry_last_seen u s :
  (forall d s' dev,
     get_device env u d s = (s', Ret dev) ->
     exists name, user_devices s u !! d = Some name /\
       dev = with_last_seen env u d (device_row u d name)) /\
  (forall s' devs,
     get_devices_by_user env u s = (s', Ret devs) ->
     forall dev, dev ∈ devs <->
       exists d name, user_devices s u !! d = Some name /\
         dev = with_last_seen env u d (device_row u d name)) /\
  (forall d row,
     with_last_seen env u d row !! "last_seen_ts"
       = Some (match client_ips env !! (u, d) with
               | Some ip => default VNone (ip !! "last_seen")
               | None => VNone
               end) /\
     with_last_seen env u d row !! "last_seen_ip"
       = Some (match client_ips env !! (u, d) with
               | Some ip => default VNone (ip !! "ip")
               | None => VNone
               end) /\
     forall k, k <> "last_seen_ts" -> k <> "last_seen_ip" ->
       with_last_seen env u d row !! k = row !! k) /\
  (no_faults env ->
   (forall d name, user_devices s u !! d = Some name ->
      exists s', get_device env u d s
                 = (s', Ret (with_last_seen env u d (device_row u d name)))) /\
   (exists s' devs, get_devices_by_user env u s = (s', Ret devs))).
Proof.
  split; [|split; [|split]].
  - intros d s' dev. apply get_device_returned.
  - intros s' devs H dev. apply get_devices_by_user_returned in H as ->.
    apply elem_of_augmented_rows.
  - intros d row. destruct (with_last_seen_fields u d row) as (H1 & H2 & H3).
    rewrite H1, H2. split; [|split; [|exact H3]].
    + destruct (client_ips env !! (u, d)) as [ip|] eqn:E.
      * by rewrite (seen_field_row _ _ _ ip).
      * by rewrite seen_field_no_row.
    + destruct (client_ips env !! (u, d)) as [ip|] eqn:E.
      * by rewrite (seen_field_row _ _ _ ip).
      * by rewrite seen_field_no_row.
  - intros Hf. split.
    + intros d name. by apply get_device_returns.
    + destruct (get_devices_by_user_run u s) as (s' & E); [apply Hf..|]. eauto.
Qed.


End Devices.

(** ** The change-diff query *)

Section Changes.

Variable env : Env.

Lemma shares_room (room_ids other_rooms : list string) :
  (list_to_set room_ids : gset string) ∩ list_to_set other_rooms ≠ ∅ <->
  exists room, room ∈ room_ids /\ room ∈ other_rooms.
Proof.
  split.
  - intros H. apply set_choose_L in H as [room Hr]. exists room.
    apply elem_of_intersection in Hr as [H1 H2].
    by rewrite !elem_of_list_to_set in H1, H2.
  - intros (room & H1 & H2) He.
    assert (room ∈ (list_to_set room_ids : gset string) ∩ list_to_set other_rooms) as Hin.
    { apply elem_of_intersection. by rewrite !elem_of_list_to_set. }
    rewrite He in Hin. by apply not_elem_of_empty in Hin.
Qed.

(** The loop over the changed users. *)
Lemma changes_loop (room_ids : list string) (l : list string) (acc : gset string) s :
  no_faults env ->
  exists s' R,
    fold_m (fun (user_ids_changed : gset string) other_user_id =>
              other_rooms <- get_rooms_for_user env other_user_id ;;
              if decide ((list_to_set room_ids : gset string)
                           ∩ list_to_set other_rooms ≠ ∅)
              then ret (user_ids_changed ∪ {[other_user_id]})
              else ret user_ids_changed)%py
           l acc s = (s', Ret R) /\
    same_data s s' /\
    forall x, x ∈ R <-> x ∈ acc \/ (x ∈ l /\ in_rooms env room_ids x).
Proof.
  intros Hf. revert acc s. induction l as [|y l IH]; intros acc s; simpl.
  - exists s, acc. split; [done|]. split; [reflexivity|].
    intros x. split; [by left | intros [?|[H _]]; [done | by apply elem_of_nil in H]].
  - unfold bind. rewrite get_rooms_for_user_run by apply Hf.
    set (s1 := record_call (store_get_rooms_for_user y) s).
    destruct (decide (_ ≠ ∅)) as [Hs|Hs]; simpl.
    + destruct (IH (acc ∪ {[y]}) s1) as (s' & R & E & Hd & HR).
      exists s', R. split; [exact E|]. split.
      { etransitivity; [apply same_data_record_call | exact Hd]. }
      intros x. rewrite HR, elem_of_union, elem_of_singleton, elem_of_cons.
      apply shares_room in Hs. split.
      * intros [[? | ->] | [? ?]];
          [by left | right; split; [by left | exact Hs] | right; split; [by right | done]].
      * intros [? | [[-> | ?] ?]]; [left; by left | left; by right | right; done].
    + destruct (IH acc s1) as (s' & R & E & Hd & HR).
      exists s', R. split; [exact E|]. split.
      { etransitivity; [apply same_data_record_call | exact Hd]. }
      intros x. rewrite HR, elem_of_cons. split.
      * intros [? | [? ?]]; [by left | right; split; [by right | done]].
      * intros [? | [[-> | ?] Hx]]; [by left | | right; done].
        exfalso. apply Hs. by apply shares_room.
Qed.

(** C9, as the code has it: with a working storage the result is exactly
    the set of users, the caller not excepted, that have a change after
    [from_key] and are joined to one of [room_ids]; it is empty when no
    user changed, it holds each user once, and the call writes nothing. *)
Theorem get_device_list_changes_exact u room_ids from_key s :
  no_faults env ->
  exists s' R,
    get_device_list_changes env u room_ids from_key s = (s', Ret R) /\
    same_data s s' /\
    (forall x, x ∈ R <-> x ∈ changed_since from_key s /\ in_rooms env room_ids x) /\
    (changed_since from_key s = ∅ -> R = ∅) /\
    NoDup (elements R).
Proof.
  intros Hf. unfold get_device_list_changes, get_user_whose_devices_changed.
  unfold bind at 1 2 3. rewrite call_run by apply Hf. simpl.
  set (s1 := record_call (store_get_user_whose_devices_changed from_key) s).
  fold (changed_since from_key s).
  destruct (changes_loop room_ids (elements (changed_since from_key s)) ∅ s1 Hf)
    as (s' & R & E & Hd & HR).
  exists s', R. split; [exact E|]. split.
  { etransitivity; [apply same_data_record_call | exact Hd]. }
  assert (HR' : forall x, x ∈ R <-> x ∈ changed_since from_key s /\ in_rooms env room_ids x).
  { intros x. rewrite HR, elem_of_elements. split.
    - intros [H|H]; [by apply not_elem_of_empty in H | done].
    - intros H; by right. }
  split; [exact HR'|]. split; [|apply NoDup_elements].
  intros He. apply set_eq. intros x. rewrite HR', He. split.
  - by intros [H _].
  - intros H. by apply not_elem_of_empty in H.
Qed.

End Changes.

(** ** Inbound device-list updates *)

Section Sync.

Variable env : Env.

Lemma resync_decision_run user ps s :
  faults env (store_get_device_list_remote_extremity user) = None ->
  resync_decision env user (VList ps) s
    = (after_decision user ps s, Ret (negb (single_match env ps (cached_extremity s user)))).
Proof.
  intros Hf. unfold resync_decision, get_device_list_remote_extremity, py_len, py_first.
  destruct ps as [|p [|q ps]].
  - reflexivity.
  - unfold bind. simpl. rewrite call_run by done. simpl.
    unfold cached_extremity. simpl.
    by destruct (String.eqb _ _).
  - unfold bind, ret at 1. cbn [length after_decision single_match negb].
    assert ((Z.of_nat (S (S (length ps))) =? 1)%Z = false) as ->; [|done].
    apply Z.eqb_neq. lia.
Qed.

Lemma after_decision_data user ps s : same_data s (after_decision user ps s).
Proof.
  unfold after_decision. destruct ps as [|? [|? ?]]; try reflexivity.
  apply same_data_record_call.
Qed.


(** The handler up to the linearizer, for a well-formed EDU of the
    origin's own user. *)
Ltac enter_handler Hedu Hdom :=
  destruct Hedu as (Hu & Hd & Hs & Hp);
  unfold _incoming_device_list_update, getitem, as_text, get_domain_from_id;
  rewrite Hu, Hd, Hs, Hp; unfold bind; simpl;
  rewrite Hdom; simpl; rewrite String.eqb_refl; simpl.









(** *** The incremental path *)

Lemma alist_lookup_insert k v l : alist_lookup k (alist_insert k v l) = Some v.
Proof.
  induction l as [|[k' v'] l IH]; simpl.
  - by rewrite decide_True.
  - destruct (decide (k = k')) as [->|Hne]; simpl.
    + by rewrite decide_True.
    + by rewrite decide_False.
Qed.

Lemma incremental_content_lookup (edu : PyDict) k :
  incremental_content edu !! k = if decide (k ∈ popped_keys) then None else edu !! k.
Proof.
  unfold incremental_content, popped_keys; simpl.
  destruct (decide (k = "prev_ids")) as [->|H1]; [by rewrite lookup_delete_eq|].
  rewrite lookup_delete_ne by done.
  destruct (decide (k = "stream_id")) as [->|H2]; [by rewrite lookup_delete_eq|].
  rewrite lookup_delete_ne by done.
  destruct (decide (k = "device_id")) as [->|H3]; [by rewrite lookup_delete_eq|].
  rewrite lookup_delete_ne by done.
  destruct (decide (k = "user_id")) as [->|H4]; [by rewrite lookup_delete_eq|].
  rewrite lookup_delete_ne by done.
  rewrite decide_False; [done|].
  rewrite !elem_of_cons. intros [?|[?|[?|[?|H]]]]; try done. by apply elem_of_nil in H.
Qed.

Lemma prev_id_not_popped : "prev_id" ∉ popped_keys.
Proof.
  unfold popped_keys. rewrite !elem_of_cons.
  intros [?|[?|[?|[?|H]]]]; try done. by apply elem_of_nil in H.
Qed.

Lemma single_match_prev_id (edu : PyDict) ps cached :
  default (VList []) (edu !! "prev_id") = VList ps ->
  single_match env ps cached = true ->
  exists p, edu !! "prev_id" = Some (VList [p]).
Proof.
  intros Hp Hm. destruct ps as [|p [|q ps]]; try done. exists p.
  destruct (edu !! "prev_id"); simpl in Hp; by simplify_eq.
Qed.

(** The cache after the incremental path, whatever the notification that
    follows does. *)
Lemma incremental_path_cache origin edu user device_id stream_id ps s :
  edu_for edu user device_id stream_id ps ->
  after_colon user = Some origin ->
  faults env (store_get_device_list_remote_extremity user) = None ->
  faults env (store_update_remote_device_list_cache_entry user device_id) = None ->
  single_match env ps (cached_extremity s user) = true ->
  exists old,
    remote_cache (_incoming_device_list_update env origin edu s).1 !! user
    = Some {| stream_extremity := stream_id;
              rc_devices := alist_insert device_id (incremental_content edu) old |}.
Proof.
  intros Hedu Hdom Hf Hw Hm. enter_handler Hedu Hdom.
  rewrite resync_decision_run, Hm by done. simpl.
  unfold update_remote_device_list_cache_entry, bind.
  rewrite call_run by done. simpl.
  match goal with |- context [notify_device_update env user ?ids ?s0] =>
    pose proof (notify_store env user ids s0) as (_ & _ & _ & _ & K) end.
  eexists. rewrite K. simpl. by rewrite lookup_insert_eq.
Qed.

(** C4, as the code has it: on the incremental path the extremity becomes
    the EDU's stream id, and the body written for the device is the EDU
    without the keys [user_id], [device_id], [stream_id] and [prev_ids];
    the key [prev_id], under which the handler reads the prev ids, is not
    among the popped keys and stays in the written body. *)
Theorem incremental_write_keeps_prev_id origin edu user device_id stream_id ps s :
  edu_for edu user device_id stream_id ps ->
  after_colon user = Some origin ->
  faults env (store_get_device_list_remote_extremity user) = None ->
  faults env (store_update_remote_device_list_cache_entry user device_id) = None ->
  single_match env ps (cached_extremity s user) = true ->
  let s' := (_incoming_device_list_update env origin edu s).1 in
  exists entry content,
    remote_cache s' !! user = Some entry /\
    stream_extremity entry = stream_id /\
    alist_lookup device_id (rc_devices entry) = Some content /\
    (forall k, content !! k = if decide (k ∈ popped_keys) then None else edu !! k) /\
    content !! "prev_id" = edu !! "prev_id" /\
    is_Some (content !! "prev_id").
Proof.
  intros Hedu Hdom Hf Hw Hm s'. subst s'.
  destruct (incremental_path_cache origin edu user device_id stream_id ps s)
    as (old & E); try done.
  destruct Hedu as (_ & _ & _ & Hp).
  destruct (single_match_prev_id edu ps _ Hp Hm) as (p & Hprev).
  eexists _, (incremental_content edu). split; [exact E|]. simpl.
  split; [done|]. split; [apply alist_lookup_insert|].
  split; [apply incremental_content_lookup|].
  assert (incremental_content edu !! "prev_id" = edu !! "prev_id") as Hk.
  { rewrite incremental_content_lookup. by rewrite decide_False by apply prev_id_not_popped. }
  split; [exact Hk|]. rewrite Hk, Hprev. by eexists.
Qed.

(** *** The cached extremity over a run of updates *)

#[local] Instance keeps_cache_of_preorder user : PreOrder (keeps_cache_of user).
Proof.
  split.
  - by intros s.
  - intros a b c H1 H2. unfold keeps_cache_of in *. congruence.
Qed.

Lemma notify_keeps_cache user u ids :
  effect (keeps_cache_of user) (notify_device_update env u ids).
Proof.
  eapply effect_weaken; [|apply notify_store].
  intros s s' (_ & _ & _ & _ & H). unfold keeps_cache_of. by rewrite H.
Qed.

(** An update for another user leaves the entry of [user] alone, however
    the handling ends. *)
Lemma update_of_other_user origin (edu : PyDict) user :
  edu !! "user_id" <> Some (VStr user) ->
  effect (keeps_cache_of user) (_incoming_device_list_update env origin edu).
Proof.
  intros Hne. unfold _incoming_device_list_update.
  unfold getitem at 1. destruct (edu !! "user_id") as [v|] eqn:Hu;
    [|apply effect_raise; typeclasses eauto].
  apply effect_bind_ret.
  apply effect_bind;
    [typeclasses eauto | apply effect_getitem; typeclasses eauto | intros device_id].
  apply effect_bind;
    [typeclasses eauto | apply effect_getitem; typeclasses eauto | intros stream_id].
  cbv zeta. unfold as_text.
  destruct v as [| |u0| |]; try (apply effect_bind_raise; typeclasses eauto).
  assert (u0 <> user) as Hu0 by congruence.
  apply effect_bind_ret.
  unfold get_domain_from_id, resync_decision, py_len, py_first,
    get_device_list_remote_extremity, query_user_devices,
    update_remote_device_list_cache, update_remote_device_list_cache_entry.
  repeat effect_step;
    try (unfold keeps_cache_of; simpl; reflexivity);
    try apply notify_keeps_cache;
    try (unfold keeps_cache_of; simpl; by rewrite lookup_insert_ne).
Qed.






(** An answer of the origin that lacks its stream id ends the handling
    with a [KeyError], before any cache write. *)
Lemma malformed_reply_keeps_cache origin edu user device_id stream_id ps s :
  edu_for edu user device_id stream_id ps ->
  after_colon user = Some origin ->
  no_faults env ->
  single_match env ps (cached_extremity s user) = false ->
  qr_stream_id (remote_reply env origin user) = None ->
  exists s',
    _incoming_device_list_update env origin edu s
      = (s', Raise (KeyError (VStr "stream_id"))) /\
    same_data s s'.
Proof.
  intros Hedu Hdom Hf Hm Hq. enter_handler Hedu Hdom.
  rewrite resync_decision_run, Hm by apply Hf. simpl.
  unfold query_user_devices, bind. rewrite call_run by apply Hf. simpl.
  rewrite Hq. simpl.
  eexists. split; [reflexivity|].
  etransitivity; [apply after_decision_data | apply same_data_record_call].
Qed.

(** C2: when the resync query fails, the handler raises that error, and
    nothing but the trace of calls has changed: the cache entry of the user,
    extremity and devices, is as it was. *)
Theorem failed_resync_keeps_cache origin edu user device_id stream_id ps e s :
  edu_for edu user device_id stream_id ps ->
  after_colon user = Some origin ->
  faults env (store_get_device_list_remote_extremity user) = None ->
  single_match env ps (cached_extremity s user) = false ->
  faults env (federation_query_user_devices origin user) = Some e ->
  exists s',
    _incoming_device_list_update env origin edu s = (s', Raise e) /\
    remote_cache s' !! user = remote_cache s !! user /\
    same_data s s'.
Proof.
  intros Hedu Hdom Hf Hm Hq. enter_handler Hedu Hdom.
  rewrite resync_decision_run, Hm by done. simpl.
  unfold query_user_devices, bind. rewrite call_fails with (e := e) by done.
  eexists. split; [reflexivity|].
  assert (D : same_data s (record_call (federation_query_user_devices origin user)
                             (after_decision user ps s))).
  { etransitivity; [apply after_decision_data | apply same_data_record_call]. }
  split; [|exact D]. destruct D as [(_ & _ & _ & _ & ->) _]. done.
Qed.

End Sync.


(** ** The scenarios, checked *)


Lemma edu_7_envelope : edu_for edu_7 "@b:remote" (VStr "D9") (VStr "7") [VStr "6"].
Proof. repeat split; vm_compute; reflexivity. Qed.

Lemma home_no_faults : no_faults home_env.
Proof. by intros c. Qed.

Lemma home_valid_ids : valid_ids home_env "@a:home".
Proof.
  split; [by eexists|]. intros room x Hr Hx.
  assert (default [] (rooms_for_user home_env !! "@a:home") = ["!r"]) as E
    by (vm_compute; reflexivity).
  rewrite E in Hr. apply list_elem_of_singleton in Hr as ->.
  assert (default [] (users_in_room home_env !! "!r") = ["@a:home"; "@b:remote"]) as E'
    by (vm_compute; reflexivity).
  rewrite E' in Hx. rewrite !elem_of_cons in Hx.
  destruct Hx as [-> | [-> | Hx]]; [by eexists | by eexists | by apply elem_of_nil in Hx].
Qed.




(** The string forms the scenarios compare. *)
Lemma string_form_examples :
  string_form home_env (VInt 6) = "6" /\
  string_form home_env (VInt (-12)) = "-12" /\
  string_form home_env (VInt 0) = "0" /\
  string_form home_env (VStr "6") = "6" /\
  string_form home_env VNone = "None" /\
  string_form quoting_env quoted_id = "[u" +:+ dquote +:+ "it's" +:+ dquote +:+ "]".
Proof. repeat split; vm_compute; reflexivity. Qed.


(** C2 at the scenario of the spec: prev id 6 on extremity 5, and the
    query times out; the extremity is still 5. *)
Lemma failed_resync_keeps_cache_witness :
  exists s',
    _incoming_device_list_update timeout_env "remote" edu_7 (cache_at (VStr "5"))
      = (s', Raise (TransportError "timeout")) /\
    remote_cache s' !! "@b:remote" = remote_cache (cache_at (VStr "5")) !! "@b:remote" /\
    same_data (cache_at (VStr "5")) s'.
Proof.
  apply (failed_resync_keeps_cache timeout_env "remote" edu_7 "@b:remote"
           (VStr "D9") (VStr "7") [VStr "6"] (TransportError "timeout")
           (cache_at (VStr "5")));
    [apply edu_7_envelope | reflexivity | reflexivity | reflexivity | reflexivity].
Defined.

(** C3 refuted as stated: deleting a device that does not exist returns
    and records a change notification for it. *)
Lemma delete_absent_device_notifies :
  ~ device_exists init_state "@a:home" "D1" /\
  exists s',
    delete_device home_env "@a:home" "D1" init_state = (s', Ret tt) /\
    device_changes init_state = [] /\
    device_changes s'
      = [{| stream_position := 1; dlc_user_id := "@a:home";
            dlc_device_ids := [VStr "D1"]; destination_hosts := ["remote"] |}] /\
    notifier_events s' = [(1, ["!r"])].
Proof.
  split.
  - intros [x Hx]. vm_compute in Hx. discriminate.
  - eexists. split; [vm_compute; reflexivity|]. repeat split.
Qed.

Lemma delete_device_notifies_always_witness :
  exists s',
    delete_device home_env "@a:home" "D1" one_device = (s', Ret tt) /\
    ~ device_exists s' "@a:home" "D1" /\
    (forall v d', (v, d') <> ("@a:home", "D1") ->
       user_devices s' v !! d' = user_devices one_device v !! d') /\
    access_tokens s'
      = filter (fun t => ¬ (t.1.1 = "@a:home" ∧ t.1.2 = "D1")) (access_tokens one_device) /\
    e2e_keys s' = delete ("@a:home", "D1") (e2e_keys one_device) /\
    notified home_env "@a:home" [VStr "D1"] one_device s'.
Proof.
  apply (delete_device_notifies_always home_env "@a:home" "D1" one_device);
    [apply home_no_faults | apply home_valid_ids].
Defined.

(** C4 at the scenario of the spec: prev id 6 on extremity 6; the body
    cached for D9 still holds the key [prev_id]. *)
Lemma incremental_write_keeps_prev_id_witness :
  exists entry content,
    remote_cache
      (_incoming_device_list_update home_env "remote" edu_7 (cache_at (VStr "6"))).1
      !! "@b:remote" = Some entry /\
    stream_extremity entry = VStr "7" /\
    alist_lookup (VStr "D9") (rc_devices entry) = Some content /\
    (forall k, content !! k = if decide (k ∈ popped_keys) then None else edu_7 !! k) /\
    content !! "prev_id" = edu_7 !! "prev_id" /\
    is_Some (content !! "prev_id").
Proof.
  apply (incremental_write_keeps_prev_id home_env "remote" edu_7 "@b:remote"
           (VStr "D9") (VStr "7") [VStr "6"] (cache_at (VStr "6")));
    [apply edu_7_envelope | reflexivity | reflexivity | reflexivity | reflexivity].
Defined.

(** The same, evaluated: what is cached for D9. *)
Lemma incremental_write_example :
  (rc_devices <$>
     remote_cache
       (_incoming_device_list_update home_env "remote" edu_7 (cache_at (VStr "6"))).1
       !! "@b:remote")
  = Some [(VStr "D9",
           {["prev_id" := VList [VStr "6"];
             "keys" := VDict [("ed25519:D9", VStr "base64key")]]})].
Proof. vm_compute. reflexivity. Qed.


(** The same, evaluated: the two updates from [remote] move the extremity
    of [@b:remote] from 5 to 6 and from 6 to 7, the update from [elsewhere]
    is dropped, and the first update for [@c:other] caches the position of
    the answer of its server. *)
Lemma delivered_example :
  cached_extremity (handle_updates home_env [("remote", edu_6)] (cache_at (VStr "5"))).1
    "@b:remote" = VStr "6" /\
  carried_position home_env "remote" "@b:remote" edu_7
    (handle_updates home_env [("remote", edu_6)] (cache_at (VStr "5"))).1
    = Some (VStr "7") /\
  cached_extremity after_delivered "@b:remote" = VStr "7" /\
  cached_extremity after_delivered "@c:other" = VStr "9".
Proof. vm_compute. repeat split. Qed.

(** The handler compares positions for equality and never orders them: an
    update that names prev id 6 and carries stream id 3 is applied
    incrementally on extremity 6, and the cache is handed position 3. *)
Lemma positions_are_not_ordered :
  exists s',
    _incoming_device_list_update home_env "remote" edu_back (cache_at (VInt 6))
      = (s', Ret tt) /\
    carried_position home_env "remote" "@b:remote" edu_back (cache_at (VInt 6))
      = Some (VInt 3) /\
    List.filter is_incremental_write (calls s')
      = [store_update_remote_device_list_cache_entry "@b:remote" (VStr "D9")] /\
    cached_extremity s' "@b:remote" = VInt 3.
Proof.
  eexists. split; [vm_compute; reflexivity|]. repeat split.
Qed.

(** C6 at a scenario: D1 registered twice. *)
Lemma check_device_registered_idempotent_witness :
  "D1" = "D1" /\
  exists s2,
    check_device_registered home_env "@a:home" (Some "D1") (VStr "Phone") one_device
      = (s2, Ret "D1") /\
    same_data one_device s2 /\
    calls s2 = calls one_device ++ [store_store_device "@a:home" "D1"].
Proof.
  apply (check_device_registered_idempotent home_env "@a:home" "D1" VNone (VStr "Phone")
           init_state one_device "D1").
  vm_compute. reflexivity.
Defined.

(** C7 at two scenarios: the one id the generator knows is taken, and the
    first id proposed is free. *)
Lemma check_device_registered_autogen_witness :
  (exists s',
     check_device_registered stuck_env "@a:home" None VNone taken_state
       = (s', Raise (StoreError 500 "Couldn't generate a device ID.")) /\
     calls s' = calls taken_state
                ++ map (fun i => store_store_device "@a:home" (candidate stuck_env taken_state i))
                     (seq 0 5) /\
     rng_pos s' = (rng_pos taken_state + 5)%nat /\
     devices s' = devices taken_state /\ same_changes taken_state s') /\
  (exists s',
     check_device_registered home_env "@a:home" None VNone init_state
       = (s', Ret (candidate home_env init_state 0))) /\
  (~ device_exists init_state "@a:home" "ABCDEFGHIJ" /\
   device_exists (check_device_registered home_env "@a:home" None VNone init_state).1
     "@a:home" "ABCDEFGHIJ" /\
   notified home_env "@a:home" [VStr "ABCDEFGHIJ"] init_state
     (check_device_registered home_env "@a:home" None VNone init_state).1).
Proof.
  split; [|split].
  - apply (check_device_registered_autogen stuck_env "@a:home" VNone taken_state).
    + intros d. reflexivity.
    + intros i _. exists VNone. vm_compute. reflexivity.
  - apply (check_device_registered_autogen home_env "@a:home" VNone init_state).
    + apply home_no_faults.
    + apply home_valid_ids.
    + lia.
    + intros i Hi. lia.
    + intros [x Hx]. vm_compute in Hx. discriminate.
  - apply (check_device_registered_autogen home_env "@a:home" VNone init_state).
    vm_compute. reflexivity.
Defined.

(** C8 at a scenario: D1 is registered, storage fails with code 500, and
    the caller is told that the device was not found. *)
Lemma get_device_masks_store_error_witness :
  device_exists one_device "@a:home" "D1" /\
  get_device broken_store_env "@a:home" "D1" one_device
    = (record_call (store_get_device "@a:home" "D1") one_device, Raise NotFoundError).
Proof.
  split.
  - exists VNone. vm_compute. reflexivity.
  - apply (get_device_masks_store_error broken_store_env "@a:home" "D1"
             500 "More than one row matched" one_device).
    reflexivity.
Defined.

(** C9 refuted as stated: the caller, whose own device list changed, is in
    the result. *)
Lemma get_device_list_changes_has_caller :
  exists s',
    get_device_list_changes home_env "@a:home" ["!r"] 0 one_device
      = (s', Ret {["@a:home"]}).
Proof. eexists. vm_compute. reflexivity. Qed.

Lemma get_device_list_changes_exact_witness :
  exists s' R,
    get_device_list_changes home_env "@a:home" ["!r"] 0 one_device = (s', Ret R) /\
    same_data one_device s' /\
    (forall x, x ∈ R <->
       x ∈ changed_since 0 one_device /\ in_rooms home_env ["!r"] x) /\
    (changed_since 0 one_device = ∅ -> R = ∅) /\
    NoDup (elements R).
Proof.
  apply (get_device_list_changes_exact home_env "@a:home" ["!r"] 0 one_device).
  apply home_no_faults.
Defined.

(** C10 at a scenario: D1 of [@a:home] has a client-IP row. *)
Lemma devices_carry_last_seen_witness :
  (exists name, user_devices one_device "@a:home" !! "D1" = Some name /\
     {["user_id" := VStr "@a:home"; "device_id" := VStr "D1"; "display_name" := VNone;
       "last_seen_ts" := VInt 1500; "last_seen_ip" := VStr "10.0.0.1"]}
     = with_last_seen home_env "@a:home" "D1" (device_row "@a:home" "D1" name)) /\
  (exists s',
     get_device home_env "@a:home" "D1" one_device
       = (s', Ret (with_last_seen home_env "@a:home" "D1"
                     (device_row "@a:home" "D1" VNone)))) /\
  (exists s' devs, get_devices_by_user home_env "@a:home" one_device = (s', Ret devs)).
Proof.
  destruct (devices_carry_last_seen home_env "@a:home" one_device) as (G & _ & _ & H).
  destruct (H home_no_faults) as [H1 H2]. split; [|split].
  - apply (G "D1" (get_device home_env "@a:home" "D1" one_device).1).
    vm_compute. reflexivity.
  - apply H1. vm_compute. reflexivity.
  - exact H2.
Defined.

Lemma get_device_example :
  (get_device home_env "@a:home" "D1" one_device).2
  = Ret {["user_id" := VStr "@a:home"; "device_id" := VStr "D1";
          "display_name" := VNone;
          "last_seen_ts" := VInt 1500; "last_seen_ip" := VStr "10.0.0.1"]}.
Proof. vm_compute. reflexivity. Qed.

(** * Further properties *)

(** ** Inbound updates: the envelope, the resync and the cache *)

Section FurtherSync.

Variable env : Env.

Lemma getitem_found (d : PyDict) k v : d !! k = Some v -> getitem d k = ret v.
Proof. unfold getitem. by intros ->. Qed.

Lemma getitem_missing (d : PyDict) k :
  d !! k = None -> getitem d k = raise (KeyError (VStr k)).
Proof. unfold getitem. by intros ->. Qed.

(** X1: an EDU for a user whose domain is not the sending origin is
    dropped: the handler returns, and not even the trace of collaborator
    calls has changed. *)
Theorem foreign_origin_is_ignored origin (edu : PyDict) user domain s :
  edu !! "user_id" = Some (VStr user) ->
  is_Some (edu !! "device_id") ->
  is_Some (edu !! "stream_id") ->
  after_colon user = Some domain ->
  domain <> origin ->
  _incoming_device_list_update env origin edu s = (s, Ret tt).
Proof.
  intros Hu [d Hd] [t Ht] Hdom Hne. unfold _incoming_device_list_update.
  rewrite (getitem_found _ _ _ Hu), (getitem_found _ _ _ Hd), (getitem_found _ _ _ Ht).
  unfold as_text, get_domain_from_id, bind; simpl. rewrite Hdom; simpl.
  apply String.eqb_neq in Hne. by rewrite Hne.
Qed.

(** X2: the three keys [user_id], [device_id] and [stream_id] are read
    before anything else; the first of them that the EDU lacks ends the
    handling with a [KeyError] for it, whatever the origin, with no
    collaborator called and nothing written. *)
Theorem missing_envelope_key origin (edu : PyDict) s :
  (edu !! "user_id" = None ->
   _incoming_device_list_update env origin edu s = (s, Raise (KeyError (VStr "user_id")))) /\
  (is_Some (edu !! "user_id") -> edu !! "device_id" = None ->
   _incoming_device_list_update env origin edu s = (s, Raise (KeyError (VStr "device_id")))) /\
  (is_Some (edu !! "user_id") -> is_Some (edu !! "device_id") ->
   edu !! "stream_id" = None ->
   _incoming_device_list_update env origin edu s = (s, Raise (KeyError (VStr "stream_id")))).
Proof.
  unfold _incoming_device_list_update. split; [|split].
  - intros Hu. by rewrite (getitem_missing _ _ Hu).
  - intros [u Hu] Hd. by rewrite (getitem_found _ _ _ Hu), (getitem_missing _ _ Hd).
  - intros [u Hu] [d Hd] Ht.
    by rewrite (getitem_found _ _ _ Hu), (getitem_found _ _ _ Hd), (getitem_missing _ _ Ht).
Qed.

(** The handler up to the resync decision. *)
Ltac open_handler Hedu Hdom :=
  destruct Hedu as (Hu & Hd & Hs & Hp);
  unfold _incoming_device_list_update;
  rewrite (getitem_found _ _ _ Hu), (getitem_found _ _ _ Hd), (getitem_found _ _ _ Hs), Hp;
  unfold as_text, get_domain_from_id; unfold bind at 1 2 3 4 5; simpl;
  rewrite Hdom; simpl; rewrite String.eqb_refl; simpl.

Lemma map_m_getitem_all (k : string) (devs : list PyDict) :
  Forall (fun dev => is_Some (dev !! k)) devs ->
  exists ids,
    Forall2 (fun dev id => dev !! k = Some id) devs ids /\
    forall s, map_m (fun dev => getitem dev k) devs s = (s, Ret ids).
Proof.
  induction 1 as [|dev devs [id Hid] _ (ids & HF & Hrun)].
  - exists []. split; [constructor | done].
  - exists (id :: ids). split; [by constructor|].
    intros s. simpl. unfold bind. rewrite (getitem_found _ _ _ Hid). simpl.
    by rewrite Hrun.
Qed.

Lemma bind_run {A B} (m : M A) (k : A -> M B) s s1 a :
  m s = (s1, Ret a) -> bind m k s = k a s1.
Proof. unfold bind. by intros ->. Qed.

Lemma bind_ret_run {A B} (a : A) (k : A -> M B) s : bind (ret a) k s = k a s.
Proof. reflexivity. Qed.

Lemma bind_fails {A B} (m : M A) (k : A -> M B) s s1 e :
  m s = (s1, Raise e) -> bind m k s = (s1, Raise e).
Proof. unfold bind. by intros ->. Qed.

Lemma query_user_devices_run origin user s :
  faults env (federation_query_user_devices origin user) = None ->
  query_user_devices env origin user s
    = (record_call (federation_query_user_devices origin user) s,
       Ret (remote_reply env origin user)).
Proof. intros Hf. unfold query_user_devices. by rewrite (bind_run _ _ _ _ _ (call_run _ _ _ Hf)). Qed.

Lemma update_remote_device_list_cache_run user devs ids v s :
  faults env (store_update_remote_device_list_cache user) = None ->
  (forall s, map_m (fun dev => getitem dev "device_id") devs s = (s, Ret ids)) ->
  update_remote_device_list_cache env user devs v s
    = (set_remote_cache
         (<[user := {| stream_extremity := v; rc_devices := zip ids devs |}]>
            (remote_cache s))
         (record_call (store_update_remote_device_list_cache user) s), Ret tt).
Proof.
  intros Hf Hrun. unfold update_remote_device_list_cache.
  rewrite (bind_run _ _ _ _ _ (call_run _ _ _ Hf)).
  by rewrite (bind_run _ _ _ _ _ (Hrun _)).
Qed.

(** A resync with working collaborators and a well-formed answer. *)
Lemma full_resync_run origin edu user device_id stream_id ps v devs s :
  edu_for edu user device_id stream_id ps ->
  after_colon user = Some origin ->
  no_faults env -> valid_ids env user ->
  single_match env ps (cached_extremity s user) = false ->
  remote_reply env origin user = {| qr_stream_id := Some v; qr_devices := Some devs |} ->
  Forall (fun dev => is_Some (dev !! "device_id")) devs ->
  exists s' ids,
    _incoming_device_list_update env origin edu s = (s', Ret tt) /\
    Forall2 (fun dev id => dev !! "device_id" = Some id) devs ids /\
    remote_cache s' !! user = Some {| stream_extremity := v; rc_devices := zip ids devs |} /\
    notified env user ids s s'.
Proof.
  intros Hedu Hdom Hf Hv Hm Hreply Hdevs.
  destruct (map_m_getitem_all "device_id" devs Hdevs) as (ids & HF & Hrun).
  open_handler Hedu Hdom.
  rewrite (bind_run _ _ _ _ _ (resync_decision_run env user ps s (Hf _))), Hm. simpl.
  rewrite (bind_run _ _ _ _ _ (query_user_devices_run origin user _ (Hf _))), Hreply.
  simpl. rewrite !bind_ret_run.
  rewrite (bind_run _ _ _ _ _ (update_remote_device_list_cache_run user devs ids v _ (Hf _) Hrun)).
  rewrite (bind_run _ _ _ _ _ (Hrun _)).
  match goal with |- context [notify_device_update env user ids ?s0] =>
    destruct (notify_returns env user ids Hf Hv s0) as (s' & [] & En & _);
    pose proof (notify_store env user ids s0) as K;
    pose proof (notify_post env user ids s0 s' En) as Hn
  end.
  rewrite En in K. destruct K as (_ & _ & _ & _ & Kc). simpl in Kc.
  exists s', ids. rewrite En. split; [done|]. split; [exact HF|]. split.
  - rewrite Kc. by rewrite lookup_insert_eq.
  - eapply notified_from; [|exact Hn].
    transitivity (after_decision user ps s).
    + apply same_data_changes, after_decision_data.
    + unfold same_changes; simpl; tauto.
Qed.

(** X3: a resync that runs to its end replaces the cache entry of the user
    wholesale: the extremity is the stream id of the origin's answer, the
    cached devices are exactly the devices of the answer, keyed by their
    ids, whatever was cached before, and one notification for all
    those ids is recorded. *)
Theorem full_resync_replaces_cache origin edu user device_id stream_id ps v devs s :
  edu_for edu user device_id stream_id ps ->
  after_colon user = Some origin ->
  no_faults env -> valid_ids env user ->
  single_match env ps (cached_extremity s user) = false ->
  remote_reply env origin user = {| qr_stream_id := Some v; qr_devices := Some devs |} ->
  Forall (fun dev => is_Some (dev !! "device_id")) devs ->
  exists s' ids,
    _incoming_device_list_update env origin edu s = (s', Ret tt) /\
    Forall2 (fun dev id => dev !! "device_id" = Some id) devs ids /\
    remote_cache s' !! user = Some {| stream_extremity := v; rc_devices := zip ids devs |} /\
    notified env user ids s s'.
Proof. apply full_resync_run. Qed.

Lemma alist_lookup_insert_ne k k' v l :
  k <> k' -> alist_lookup k (alist_insert k' v l) = alist_lookup k l.
Proof.
  intros Hne. induction l as [|[k0 v0] l IH]; simpl.
  - by rewrite decide_False.
  - destruct (decide (k' = k0)) as [->|Hk]; simpl.
    + by rewrite !decide_False.
    + destruct (decide (k = k0)); [done | exact IH].
Qed.

Lemma cached_devices_after_decision user ps s u :
  cached_devices (after_decision user ps s) u = cached_devices s u.
Proof. unfold after_decision. by destruct ps as [|? [|? ?]]. Qed.

(** The cache entry the incremental path leaves, whatever the
    notification that follows does. *)
Lemma incremental_path_entry origin edu user device_id stream_id ps s :
  edu_for edu user device_id stream_id ps ->
  after_colon user = Some origin ->
  faults env (store_get_device_list_remote_extremity user) = None ->
  faults env (store_update_remote_device_list_cache_entry user device_id) = None ->
  single_match env ps (cached_extremity s user) = true ->
  remote_cache (_incoming_device_list_update env origin edu s).1 !! user
  = Some {| stream_extremity := stream_id;
            rc_devices := alist_insert device_id (incremental_content edu)
                            (cached_devices s user) |}.
Proof.
  intros Hedu Hdom Hf Hw Hm. open_handler Hedu Hdom.
  rewrite (bind_run _ _ _ _ _ (resync_decision_run env user ps s Hf)), Hm. simpl.
  unfold update_remote_device_list_cache_entry.
  rewrite (bind_run _ _ _ _ _
             (bind_run _ _ _ _ _ (call_run env _ (after_decision user ps s) Hw))).
  match goal with |- context [notify_device_update env user ?ids ?s0] =>
    pose proof (notify_store env user ids s0) as (_ & _ & _ & _ & K) end.
  rewrite K. simpl. rewrite lookup_insert_eq.
  fold (cached_devices (after_decision user ps s) user).
  by rewrite cached_devices_after_decision.
Qed.

(** X4: the incremental path writes the one device the EDU names and
    nothing else of the entry: every other device cached for the user is
    still cached with the body it had. *)
Theorem incremental_keeps_other_devices origin edu user device_id stream_id ps s k :
  edu_for edu user device_id stream_id ps ->
  after_colon user = Some origin ->
  faults env (store_get_device_list_remote_extremity user) = None ->
  faults env (store_update_remote_device_list_cache_entry user device_id) = None ->
  single_match env ps (cached_extremity s user) = true ->
  k <> device_id ->
  alist_lookup k (cached_devices (_incoming_device_list_update env origin edu s).1 user)
  = alist_lookup k (cached_devices s user).
Proof.
  intros Hedu Hdom Hf Hw Hm Hk. unfold cached_devices at 1.
  rewrite (incremental_path_entry origin edu user device_id stream_id ps s) by done.
  simpl. by apply alist_lookup_insert_ne.
Qed.

(** X5: handling an EDU that does not name [user] as its user never
    touches the cache entry of [user], in whatever way the handling ends
    (returned, dropped, or failed in the middle). *)
Theorem other_users_cache_untouched origin (edu : PyDict) user s :
  edu !! "user_id" <> Some (VStr user) ->
  remote_cache (_incoming_device_list_update env origin edu s).1 !! user
  = remote_cache s !! user.
Proof. intros Hne. apply (update_of_other_user env origin edu user Hne s). Qed.

End FurtherSync.

(** ** Notifications: who is poked *)

Section FurtherNotify.

Variable env : Env.

Lemma map_m_domains (users : list string) s s' ds :
  map_m get_domain_from_id users s = (s', Ret ds) ->
  s' = s /\ Forall2 (fun x d => after_colon x = Some d) users ds.
Proof.
  revert s s' ds. induction users as [|x users IH]; intros s s' ds; simpl.
  - unfold ret. intros [= <- <-]. split; [done | constructor].
  - unfold bind. unfold get_domain_from_id at 1.
    destruct (after_colon x) as [d|] eqn:Hx; [unfold ret at 1 | by unfold raise].
    destruct (map_m get_domain_from_id users s) as [s1 [ds'|e]] eqn:E; [|done].
    unfold ret. intros [= <- <-]. apply IH in E as [-> HF].
    split; [done | by constructor].
Qed.

Lemma elem_of_domains (users ds : list string) h :
  Forall2 (fun x d => after_colon x = Some d) users ds ->
  h ∈ ds <-> exists x, x ∈ users /\ after_colon x = Some h.
Proof.
  induction 1 as [|x d users ds Hx _ IH].
  - split; [intros H; by apply elem_of_nil in H | intros (x & H & _); by apply elem_of_nil in H].
  - rewrite elem_of_cons, IH. split.
    + intros [-> | (y & Hy & Hd)]; [exists x; split; [left | done] | exists y; split; [by right | done]].
    + intros (y & Hy & Hd). apply elem_of_cons in Hy as [-> | Hy].
      * left. congruence.
      * right. by exists y.
Qed.

(** The loop over the rooms of a local user. *)
Lemma hosts_loop (rooms : list string) (acc : gset string) s s' hosts :
  fold_m (fun (hosts : gset string) room_id =>
            users <- get_current_user_in_room env room_id ;;
            domains <- map_m get_domain_from_id users ;;
            ret (hosts ∪ list_to_set domains))%py
         rooms acc s = (s', Ret hosts) ->
  forall h, h ∈ hosts <->
    h ∈ acc \/ exists room x,
      room ∈ rooms /\ x ∈ default [] (users_in_room env !! room) /\ after_colon x = Some h.
Proof.
  revert acc s. induction rooms as [|room rooms IH]; intros acc s; simpl.
  - unfold ret. intros [= <- <-] h. split; [by left|].
    intros [?|(r & x & H & _)]; [done | by apply elem_of_nil in H].
  - unfold bind at 1.
    destruct ((users <- get_current_user_in_room env room ;;
               domains <- map_m get_domain_from_id users ;;
               ret (acc ∪ list_to_set domains))%py s) as [s1 [acc'|e]] eqn:E; [|done].
    intros H h. rewrite (IH _ _ H h). clear IH H.
    revert E. unfold get_current_user_in_room, call. unfold bind; simpl.
    destruct (faults env (state_get_current_user_in_room room)); simpl; [done|].
    destruct (map_m get_domain_from_id _ _) as [s2 [ds|e]] eqn:Ed; [|done].
    apply map_m_domains in Ed as [-> HF]. unfold ret. intros [= <- <-].
    rewrite elem_of_union, elem_of_list_to_set, (elem_of_domains _ _ h HF). split.
    + intros [[?|(x & Hx & Hd)]|(r & x & Hr & Hx & Hd)].
      * by left.
      * right. exists room, x. split; [left | done].
      * right. exists r, x. split; [by right | done].
    + intros [?|(r & x & Hr & Hx & Hd)]; [left; by left|].
      apply elem_of_cons in Hr as [-> | Hr].
      * left. right. by exists x.
      * right. by exists r, x.
Qed.

(** The hosts collected for a user: none for a remote user; for a local
    one, the member domains other than this server. *)
Lemma interested_hosts_returned u s s' hosts :
  interested_hosts env u (default [] (rooms_for_user env !! u)) s = (s', Ret hosts) ->
  forall h, h ∈ hosts <->
    is_local env u /\ h <> server_name env /\ member_domain env u h.
Proof.
  unfold interested_hosts, is_mine_id, is_local.
  destruct (after_colon u) as [d|] eqn:Hu; [|done].
  rewrite bind_ret_run.
  destruct (String.eqb d (server_name env)) eqn:Hd.
  - apply String.eqb_eq in Hd as ->. unfold bind at 1.
    destruct (fold_m _ _ _ s) as [s1 [hs|e]] eqn:E; [|done].
    unfold ret. intros [= <- <-] h.
    rewrite elem_of_difference, elem_of_singleton, (hosts_loop _ _ _ _ _ E h).
    unfold member_domain. split.
    + intros [[H|H] Hne]; [by apply not_elem_of_empty in H | done].
    + intros (_ & Hne & H). split; [by right | done].
  - apply String.eqb_neq in Hd. unfold ret. intros [= <- <-] h. split.
    + intros H. by apply not_elem_of_empty in H.
    + intros ([= ->] & _). done.
Qed.

Lemma pokes_run (hosts : list string) s s' :
  for_each hosts (send_device_messages env) s = (s', Ret tt) ->
  pokes s' = pokes s ++ hosts.
Proof.
  revert s. induction hosts as [|h hosts IH]; intros s; simpl.
  - unfold ret. intros [= <-]. by rewrite app_nil_r.
  - unfold bind at 1, send_device_messages, call. unfold bind; simpl.
    destruct (faults env (federation_sender_send_device_messages h)); simpl; [done|].
    intros H. apply IH in H. rewrite H. simpl. by rewrite <- app_assoc.
Qed.

(** What a notification that returned has recorded, hosts and pokes
    included. *)
Lemma notify_returned u ids s s' :
  notify_device_update env u ids s = (s', Ret tt) ->
  exists hosts : gset string,
    (forall h, h ∈ hosts <->
       is_local env u /\ h <> server_name env /\ member_domain env u h) /\
    device_changes s' =
      device_changes s ++ [{| stream_position := stream_pos s + 1; dlc_user_id := u;
                              dlc_device_ids := ids;
                              destination_hosts := elements hosts |}] /\
    pokes s' = pokes s ++ elements hosts.
Proof.
  unfold notify_device_update. intros H.
  unfold bind at 1 in H.
  destruct (get_rooms_for_user env u s) as [s1 [rooms|e]] eqn:E1; [|done].
  assert (rooms = default [] (rooms_for_user env !! u) /\ same_data s s1) as [-> D1].
  { unfold get_rooms_for_user, call, bind in E1; simpl in E1.
    destruct (faults env _); unfold ret, raise in E1; simplify_eq.
    split; [done | apply same_data_record_call]. }
  unfold bind at 1 in H.
  destruct (interested_hosts env u _ s1) as [s2 [hosts|e]] eqn:E2; [|done].
  pose proof (interested_hosts_data env u (default [] (rooms_for_user env !! u)) s1) as D2.
  rewrite E2 in D2; simpl in D2.
  assert (D : same_data s s2) by (etransitivity; eauto).
  destruct D as [_ (Dp & Dc & Dn & Dk)].
  exists hosts. split; [by apply (interested_hosts_returned u s1 s2)|].
  unfold add_device_change_to_streams, on_new_event, call in H.
  unfold bind at 1 2 3 4 5 in H; simpl in H.
  destruct (faults env (store_add_device_change_to_streams _ _)); [done|].
  unfold bind at 1 2 3 in H; simpl in H.
  destruct (faults env (notifier_on_new_event _ _)); [done|].
  unfold ret at 1, modify at 1 in H; simpl in H.
  destruct (decide (hosts ≠ ∅)) as [Hne|He].
  - pose proof (pokes_changes env (elements hosts)) as K.
    match type of H with ?m ?s0 = _ => specialize (K s0) end.
    rewrite H in K. destruct K as (_ & Kc & _). simpl in Kc.
    apply pokes_run in H. simpl in H. rewrite Kc, H, Dp, Dc, Dk. done.
  - unfold ret in H. simplify_eq. simpl.
    assert (hosts = ∅) as -> by (destruct (decide (hosts = ∅)); [done | by destruct He]).
    rewrite elements_empty, app_nil_r, Dp, Dc, Dk. done.
Qed.

(** X6: a notification that returned has poked exactly the hosts written
    into its change record, each once: for a local user the domains of the
    members of the user's rooms, this server left out; for a remote user
    none at all. *)
Theorem notification_pokes_member_domains u ids s s' :
  notify_device_update env u ids s = (s', Ret tt) ->
  exists hs,
    NoDup hs /\
    (forall h, h ∈ hs <->
       is_local env u /\ h <> server_name env /\ member_domain env u h) /\
    device_changes s' =
      device_changes s ++ [{| stream_position := stream_pos s + 1; dlc_user_id := u;
                              dlc_device_ids := ids; destination_hosts := hs |}] /\
    pokes s' = pokes s ++ hs.
Proof.
  intros H. apply notify_returned in H as (hosts & Hh & Hc & Hp).
  exists (elements hosts). split; [apply NoDup_elements|].
  split; [|done]. intros h. by rewrite elem_of_elements.
Qed.

#[local] Instance no_poke_preorder : PreOrder no_poke.
Proof.
  split.
  - by intros s.
  - intros a b c [H1 H2] [H3 H4]. split; congruence.
Qed.

Lemma no_poke_record_call c s : is_poke c = false -> no_poke s (record_call c s).
Proof.
  intros H. split; [done|]. simpl. rewrite List.filter_app. simpl. rewrite H.
  by rewrite app_nil_r.
Qed.

Lemma interested_hosts_remote u domain rooms s :
  after_colon u = Some domain ->
  domain <> server_name env ->
  interested_hosts env u rooms s = (s, Ret ∅).
Proof.
  intros Hdom Hne. apply String.eqb_neq in Hne.
  unfold interested_hosts, is_mine_id. rewrite Hdom, bind_ret_run, Hne. done.
Qed.

(** X7: for a user of another server, [notify_device_update] pokes no
    host and does not even attempt a poke, however it ends: changes of
    remote users are never re-federated. *)
Theorem remote_user_never_federated u ids domain s :
  after_colon u = Some domain ->
  domain <> server_name env ->
  pokes (notify_device_update env u ids s).1 = pokes s /\
  List.filter is_poke (calls (notify_device_update env u ids s).1)
    = List.filter is_poke (calls s).
Proof.
  intros Hdom Hne. change (no_poke s (notify_device_update env u ids s).1).
  unfold notify_device_update.
  assert (E1 : no_poke s (get_rooms_for_user env u s).1).
  { revert s. change (effect no_poke (get_rooms_for_user env u)).
    unfold get_rooms_for_user. repeat effect_step. by apply no_poke_record_call. }
  destruct (get_rooms_for_user env u s) as [s1 [rooms|e]] eqn:E.
  2:{ by rewrite (bind_fails _ _ _ _ _ E). }
  rewrite (bind_run _ _ _ _ _ E). simpl in E1.
  rewrite (bind_run _ _ _ _ _ (interested_hosts_remote u domain rooms s1 Hdom Hne)).
  etransitivity; [exact E1|]. clear E E1.
  assert (K : effect no_poke
                (position <- add_device_change_to_streams env u ids
                               (elements (∅ : gset string)) ;;
                 on_new_event env position rooms ;;;
                 if decide ((∅ : gset string) ≠ ∅)
                 then for_each (elements (∅ : gset string)) (send_device_messages env)
                 else ret tt)%py).
  { unfold add_device_change_to_streams, on_new_event.
    destruct (decide ((∅ : gset string) ≠ ∅)) as [Hc|_]; [done|].
    repeat effect_step; try (by apply no_poke_record_call); by split. }
  apply K.
Qed.

End FurtherNotify.

(** ** Deleting, registering and reading devices *)

Section FurtherDevices.

Variable env : Env.

(** X8: when the storage fails to delete the device row for a reason
    other than not-found, [delete_device] raises that very error at once:
    no token is revoked, no key deleted and no notification recorded. *)
Theorem delete_device_stops_on_row_error u d e s :
  faults env (store_delete_device u d) = Some e ->
  is_not_found e = false ->
  delete_device env u d s = (record_call (store_delete_device u d) s, Raise e).
Proof.
  intros Hf He. unfold delete_device, try_except, delete_device_row.
  unfold bind. rewrite call_fails with (e := e) by done.
  destruct e; simpl in *; try done. by rewrite He.
Qed.

(** X9: the steps of [delete_device] are not undone: when the token
    revocation fails, the error is raised, the device row is already gone,
    and tokens, keys and the change stream are as they were. *)
Theorem delete_device_revocation_failure u d e s :
  faults env (store_delete_device u d) = None ->
  faults env (store_user_delete_access_tokens u d) = Some e ->
  exists s',
    delete_device env u d s = (s', Raise e) /\
    ~ device_exists s' u d /\
    (forall v d', (v, d') <> (u, d) -> user_devices s' v !! d' = user_devices s v !! d') /\
    access_tokens s' = access_tokens s /\
    e2e_keys s' = e2e_keys s /\
    same_changes s s'.
Proof.
  intros Hd Ht. unfold delete_device, try_except, delete_device_row,
    user_delete_access_tokens.
  unfold bind. rewrite call_run by done. simpl.
  change (user_devices (record_call (store_delete_device u d) s) u)
    with (user_devices s u).
  destruct (user_devices s u !! d) as [name|] eqn:E; simpl;
    rewrite call_fails with (e := e) by done;
    eexists; (split; [reflexivity|]); simpl.
  - split.
    { unfold device_exists, user_devices; simpl.
      rewrite lookup_insert_eq; simpl. rewrite lookup_delete_eq. by intros [? ?]. }
    split; [|by unfold same_changes].
    intros v d' Hne. unfold user_devices; simpl.
    destruct (decide (u = v)) as [<-|Huv].
    + rewrite lookup_insert_eq; simpl. rewrite lookup_delete_ne; [done|congruence].
    + by rewrite lookup_insert_ne.
  - split.
    { unfold device_exists.
      change (user_devices (record_call (store_user_delete_access_tokens u d)
                              (record_call (store_delete_device u d) s)) u)
        with (user_devices s u).
      rewrite E. by intros [? ?]. }
    split; [done | by unfold same_changes].
Qed.

(** [delete_device] with working collaborators. *)
Lemma delete_device_run u d s :
  no_faults env -> valid_ids env u ->
  exists s',
    delete_device env u d s = (s', Ret tt) /\
    devices s' = devices (after_delete u d s) /\
    access_tokens s' = access_tokens (after_delete u d s) /\
    e2e_keys s' = e2e_keys (after_delete u d s) /\
    notified env u [VStr d] s s'.
Proof.
  intros Hf Hv.
  destruct (delete_device_storage env u d s Hf) as (s1 & E1 & Hs & Hd & Ht & Hk).
  destruct (notify_returns env u [VStr d] Hf Hv s1) as (s' & [] & En & _).
  pose proof (notify_store env u [VStr d] s1) as K. rewrite En in K.
  destruct K as (_ & Kd & Kt & Kk & _). simpl in *.
  exists s'. split.
  { unfold delete_device. unfold bind in E1 |- *.
    destruct (try_except _ _ _ s) as [sa [[]|?]]; [|done].
    destruct (user_delete_access_tokens env u d sa) as [sb [[]|?]]; [|done].
    destruct (delete_e2e_keys_by_device env u d sb) as [sc [[]|?]]; [|done].
    simplify_eq. exact En. }
  split; [congruence|]. split; [congruence|]. split; [congruence|].
  eapply notified_from; [exact Hs | by apply notify_post].
Qed.

Lemma after_delete_tokens u d s :
  access_tokens (after_delete u d s)
  = filter (fun t => ¬ (t.1.1 = u ∧ t.1.2 = d)) (access_tokens s).
Proof. unfold after_delete; simpl. by destruct (user_devices s u !! d). Qed.

Lemma after_delete_keys u d s :
  e2e_keys (after_delete u d s) = delete (u, d) (e2e_keys s).
Proof. unfold after_delete; simpl. by destruct (user_devices s u !! d). Qed.

Lemma filter_twice {A} (P : A -> Prop) `{!forall x, Decision (P x)} (l : list A) :
  filter P (filter P l) = filter P l.
Proof.
  induction l as [|x l IH]; [done|].
  rewrite filter_cons. destruct (decide (P x)) as [Hx|Hx]; [|exact IH].
  rewrite filter_cons, decide_True by done. by rewrite IH.
Qed.

(** X10: deleting a device a second time changes nothing in devices,
    tokens and keys, but it is notified again: two calls leave two change
    records for the device, at consecutive stream positions. *)
Theorem delete_device_twice u d s :
  no_faults env -> valid_ids env u ->
  exists s1 s2 h1 h2,
    delete_device env u d s = (s1, Ret tt) /\
    delete_device env u d s1 = (s2, Ret tt) /\
    devices s2 = devices s1 /\
    access_tokens s2 = access_tokens s1 /\
    e2e_keys s2 = e2e_keys s1 /\
    device_changes s2 =
      device_changes s
      ++ [{| stream_position := stream_pos s + 1; dlc_user_id := u;
             dlc_device_ids := [VStr d]; destination_hosts := h1 |};
          {| stream_position := stream_pos s + 2; dlc_user_id := u;
             dlc_device_ids := [VStr d]; destination_hosts := h2 |}].
Proof.
  intros Hf Hv.
  destruct (delete_device_run u d s Hf Hv)
    as (s1 & E1 & Hd1 & Ht1 & Hk1 & (h1 & Hp1 & Hc1 & _)).
  destruct (delete_device_run u d s1 Hf Hv)
    as (s2 & E2 & Hd2 & Ht2 & Hk2 & (h2 & Hp2 & Hc2 & _)).
  exists s1, s2, h1, h2. split; [exact E1|]. split; [exact E2|].
  assert (Habs : user_devices s1 u !! d = None).
  { destruct (user_devices s1 u !! d) eqn:E; [|done].
    exfalso. apply (after_delete_absent u d s).
    unfold device_exists, user_devices in *. rewrite <- Hd1, E. by eexists. }
  split.
  { rewrite Hd2. unfold after_delete. by rewrite Habs. }
  split.
  { rewrite Ht2, after_delete_tokens, Ht1, after_delete_tokens. apply filter_twice. }
  split.
  { rewrite Hk2, after_delete_keys, Hk1, after_delete_keys. apply delete_delete_eq. }
  rewrite Hc2, Hc1, Hp1, <- app_assoc. simpl.
  by replace (stream_pos s + 1 + 1) with (stream_pos s + 2) by lia.
Qed.

(** The devices table after a registration with an explicit id. *)
Lemma registered_name u d name s s1 d1 :
  check_device_registered env u (Some d) name s = (s1, Ret d1) ->
  user_devices s1 u !! d = Some (name_after_register s u d name) /\
  forall v d', (v, d') <> (u, d) -> user_devices s1 v !! d' = user_devices s v !! d'.
Proof.
  unfold check_device_registered, name_after_register. intros H.
  destruct (faults env (store_store_device u d)) as [e|] eqn:Hf.
  { revert H. unfold store_device. unfold bind.
    by rewrite call_fails with (e := e). }
  destruct (user_devices s u !! d) as [old|] eqn:E.
  - rewrite (bind_run _ _ _ _ _ (store_device_known env u d name s Hf (ex_intro _ old E)))
      in H.
    unfold bind, ret in H. injection H as <- <-. split; [|done].
    change (user_devices (record_call (store_store_device u d) s) u)
      with (user_devices s u). by rewrite E.
  - assert (Hx : ~ device_exists s u d).
    { unfold device_exists. rewrite E. by intros [? ?]. }
    rewrite (bind_run _ _ _ _ _ (store_device_fresh env u d name s Hf Hx)) in H.
    unfold bind in H.
    destruct (notify_device_update env u [VStr d] _) as [s2 [[]|e]] eqn:En; [|done].
    unfold ret in H. injection H as <- <-.
    match type of En with notify_device_update _ _ _ ?s0 = _ =>
      pose proof (notify_store env u [VStr d] s0) as K end.
    rewrite En in K.
    destruct K as (_ & Kd & _). simpl in Kd.
    unfold user_devices. rewrite Kd. split.
    + rewrite lookup_insert_eq. simpl. by rewrite lookup_insert_eq.
    + intros v d' Hne. destruct (decide (u = v)) as [<-|Huv].
      * rewrite lookup_insert_eq. simpl. rewrite lookup_insert_ne; [done|congruence].
      * by rewrite lookup_insert_ne.
Qed.

(** X11: a registration with an explicit id never overwrites a display
    name: afterwards the device has the name it had before, or the given
    one if it was new, and every other device is as it was. *)
Theorem registration_keeps_known_name u d name s s1 d1 :
  check_device_registered env u (Some d) name s = (s1, Ret d1) ->
  user_devices s1 u !! d = Some (default name (user_devices s u !! d)) /\
  forall v d', (v, d') <> (u, d) -> user_devices s1 v !! d' = user_devices s v !! d'.
Proof. apply registered_name. Qed.

(** X12: what was registered can be read back: after a registration with
    an explicit id, [get_device] returns the row of that device, with the
    display name of the registration (or the older one) and the last-seen
    fields. *)
Theorem register_then_get_device u d name s s1 d1 :
  check_device_registered env u (Some d) name s = (s1, Ret d1) ->
  faults env (store_get_device u d) = None ->
  faults env (store_get_last_client_ip_by_device [(u, d)]) = None ->
  exists s2,
    get_device env u d s1
    = (s2, Ret (with_last_seen env u d
                  (device_row u d (name_after_register s u d name)))).
Proof.
  intros H Hf1 Hf2. apply registered_name in H as [Hx _].
  by apply get_device_returns.
Qed.

(** X13: [get_device] translates [StoreError] only: any other exception
    of the storage lookup reaches the caller as it is. *)
Theorem get_device_propagates_other_errors u d e s :
  faults env (store_get_device u d) = Some e ->
  is_StoreError e = false ->
  get_device env u d s = (record_call (store_get_device u d) s, Raise e).
Proof.
  intros Hf He. unfold get_device, try_except, get_device_row.
  unfold bind. rewrite call_fails with (e := e) by done. by rewrite He.
Qed.

(** X14: for a device that is not registered [get_device] raises
    [NotFoundError] after the one storage lookup; the client-IP store is
    not asked. *)
Theorem get_device_of_absent_device u d s :
  faults env (store_get_device u d) = None ->
  ~ device_exists s u d ->
  get_device env u d s = (record_call (store_get_device u d) s, Raise NotFoundError) /\
  calls (get_device env u d s).1 = calls s ++ [store_get_device u d].
Proof.
  intros Hf Hx.
  assert (user_devices s u !! d = None) as E.
  { destruct (user_devices s u !! d) eqn:E; [|done]. exfalso. apply Hx. by eexists. }
  rewrite (get_device_absent env u d s Hf E). done.
Qed.

Lemma size_device_rows u s : length (device_rows u s) = size (user_devices s u).
Proof.
  unfold device_rows. rewrite length_map_to_list.
  rewrite <- !(size_dom (D := gset string)). f_equal.
  apply set_eq. intros k. rewrite !elem_of_dom, map_lookup_imap.
  destruct (user_devices s u !! k); simpl; split; intros [? ?]; by eauto.
Qed.

(** X15: with a working storage [get_devices_by_user] returns one record
    per registered device of the user, none for a user without devices, and
    writes nothing. *)
Theorem get_devices_by_user_one_per_device u s :
  no_faults env ->
  exists s' devs,
    get_devices_by_user env u s = (s', Ret devs) /\
    length devs = size (user_devices s u) /\
    (user_devices s u = ∅ -> devs = []) /\
    same_data s s'.
Proof.
  intros Hf.
  destruct (get_devices_by_user_run env u s (Hf _) (Hf _)) as (s' & E).
  exists s', (augment_row env <$> (device_rows u s).*2). split; [exact E|].
  assert (L : length (augment_row env <$> (device_rows u s).*2) = size (user_devices s u)).
  { by rewrite !length_fmap, size_device_rows. }
  split; [exact L|]. split.
  - intros He. rewrite He, map_size_empty in L. by apply length_zero_iff_nil.
  - assert (K : effect same_data (get_devices_by_user env u)).
    { unfold get_devices_by_user, get_devices_by_user_rows,
        get_last_client_ip_by_device, _update_device_from_client_ips, client_ips_get.
      repeat effect_step; apply same_data_record_call. }
    specialize (K s). by rewrite E in K.
Qed.

(** *** Made-up ids *)

Lemma upper_ascii_idempotent c : upper_ascii (upper_ascii c) = upper_ascii c.
Proof. destruct c as [[] [] [] [] [] [] [] []]; reflexivity. Qed.

Lemma upper_idempotent t : upper (upper t) = upper t.
Proof. induction t as [|c t IH]; simpl; [done|]. by rewrite upper_ascii_idempotent, IH. Qed.

(** X16: a device id that [check_device_registered] makes up has no
    lower-case letter: [upper] leaves it as it is. *)
Theorem made_up_ids_are_upper_case u name s s' d :
  check_device_registered env u None name s = (s', Ret d) ->
  upper d = d.
Proof.
  unfold check_device_registered. intros H.
  apply autogen_returned in H as (k & _ & -> & _).
  unfold candidate. apply upper_idempotent.
Qed.

#[local] Instance devices_grow_preorder : PreOrder devices_grow.
Proof.
  split.
  - by intros s v d.
  - intros a b c H1 H2 v d H. by apply H2, H1.
Qed.

Lemma devices_grow_same (s s' : State) : devices s' = devices s -> devices_grow s s'.
Proof. intros H v d. by apply device_exists_store. Qed.

Lemma store_device_grows u d name : effect devices_grow (store_device env u d name).
Proof.
  intros s. unfold store_device, call, bind; simpl.
  destruct (faults env (store_store_device u d)); simpl; [by apply devices_grow_same|].
  change (user_devices (record_call (store_store_device u d) s) u) with (user_devices s u).
  destruct (user_devices s u !! d) eqn:E; simpl; [by apply devices_grow_same|].
  intros v d' [x Hx]. unfold device_exists, user_devices in *; simpl.
  destruct (decide (u = v)) as [<-|Huv].
  - rewrite lookup_insert_eq; simpl. destruct (decide (d = d')) as [<-|Hd].
    + rewrite lookup_insert_eq. by eexists.
    + rewrite lookup_insert_ne by done. by eexists.
  - rewrite lookup_insert_ne by done. by eexists.
Qed.

Lemma autogen_grows n u name : effect devices_grow (autogen_device_id env n u name).
Proof.
  induction n as [|n IH]; simpl.
  - apply effect_raise; typeclasses eauto.
  - apply effect_bind; [typeclasses eauto | | intros r].
    { intros s. by apply devices_grow_same. }
    apply effect_bind; [typeclasses eauto | apply store_device_grows | intros b].
    destruct b; [|exact IH].
    apply effect_bind; [typeclasses eauto | | intros _; apply effect_ret; typeclasses eauto].
    eapply effect_weaken; [|apply notify_store].
    intros s s' (_ & H & _). by apply devices_grow_same.
Qed.

(** X17: two registrations without a device id give two different ids,
    both registered in the end: the second id differs from every device the
    user had when it was made up. *)
Theorem made_up_ids_are_distinct u name name' s s1 s2 d1 d2 :
  check_device_registered env u None name s = (s1, Ret d1) ->
  check_device_registered env u None name' s1 = (s2, Ret d2) ->
  d1 <> d2 /\ device_exists s2 u d1 /\ device_exists s2 u d2.
Proof.
  unfold check_device_registered. intros H1 H2.
  pose proof (autogen_grows 5 u name' s1) as G. rewrite H2 in G. simpl in G.
  apply autogen_returned in H1 as (_ & _ & _ & _ & _ & Hreg1 & _).
  apply autogen_returned in H2 as (_ & _ & _ & _ & Hfresh2 & Hreg2 & _).
  split; [|split; [by apply G | exact Hreg2]].
  intros ->. by apply Hfresh2.
Qed.

(** X18: with no room given, [get_device_list_changes] returns the empty
    set, whatever has changed. *)
Theorem no_rooms_no_changes u from_key s :
  no_faults env ->
  exists s', get_device_list_changes env u [] from_key s = (s', Ret ∅).
Proof.
  intros Hf.
  destruct (changes_loop env [] (elements (changed_since from_key s)) ∅
              (record_call (store_get_user_whose_devices_changed from_key) s) Hf)
    as (s' & R & E & _ & HR).
  assert (R = ∅) as ->.
  { apply set_eq. intros x. rewrite HR. split.
    - intros [H|(_ & r & Hr & _)]; [done | by apply elem_of_nil in Hr].
    - intros H. by apply not_elem_of_empty in H. }
  exists s'. unfold get_device_list_changes.
  assert (X : get_user_whose_devices_changed env from_key s
              = (record_call (store_get_user_whose_devices_changed from_key) s,
                 Ret (changed_since from_key s))).
  { unfold get_user_whose_devices_changed.
    by rewrite (bind_run _ _ _ _ _ (call_run env _ s (Hf _))). }
  rewrite (bind_run _ _ _ _ _ X). exact E.
Qed.

End FurtherDevices.

(** ** Renaming a device, and answering a query *)

Section FurtherUpdate.

Variable env : Env.
Variable more_faults : MoreCall -> option Exn.
Variable keyed_devices : State -> string -> PyVal * list PyDict.

Lemma update_device_row_run u d old name s :
  more_faults (store_update_device u d) = None ->
  user_devices s u !! d = Some old ->
  update_device_row more_faults u d (VStr name) s
  = (set_devices (<[u := <[d := VStr name]> (user_devices s u)]> (devices s)) s, Ret tt).
Proof.
  intros Hf Hx. unfold update_device_row, call_more. rewrite Hf, bind_ret_run.
  unfold bind, get_state. by rewrite Hx.
Qed.

Lemma update_device_row_absent u d v s :
  more_faults (store_update_device u d) = None ->
  user_devices s u !! d = None ->
  update_device_row more_faults u d v s = (s, Raise (StoreError 404 "No row found")).
Proof.
  intros Hf Hx. unfold update_device_row, call_more. rewrite Hf, bind_ret_run.
  unfold bind, get_state. by rewrite Hx.
Qed.

(** X19: renaming a device that is not registered raises
    [NotFoundError]; nothing is written and no notification is recorded. *)
Theorem update_device_of_absent_device u d (content : PyDict) name s :
  content !! "display_name" = Some (VStr name) ->
  more_faults (store_update_device u d) = None ->
  ~ device_exists s u d ->
  update_device env more_faults u d content s = (s, Raise NotFoundError).
Proof.
  intros Hc Hf Hx.
  assert (user_devices s u !! d = None) as E.
  { destruct (user_devices s u !! d) eqn:E; [|done]. exfalso. apply Hx. by eexists. }
  unfold update_device, try_except. rewrite Hc. simpl.
  by rewrite (bind_fails _ _ _ _ _ (update_device_row_absent u d (VStr name) s Hf E)).
Qed.

(** The devices table after a renaming that got as far as the
    notification. *)
Lemma renamed_devices u d name (s s' : State) :
  devices s' = <[u := <[d := VStr name]> (user_devices s u)]> (devices s) ->
  user_devices s' u !! d = Some (VStr name) /\
  forall v d', (v, d') <> (u, d) -> user_devices s' v !! d' = user_devices s v !! d'.
Proof.
  intros H. unfold user_devices. rewrite H. split.
  - rewrite lookup_insert_eq. simpl. by rewrite lookup_insert_eq.
  - intros v d' Hne. destruct (decide (u = v)) as [<-|Huv].
    + rewrite lookup_insert_eq. simpl. rewrite lookup_insert_ne; [done|congruence].
    + by rewrite lookup_insert_ne.
Qed.

(** X20: renaming a registered device, with working collaborators, sets
    its display name, leaves every other device as it was, and records
    exactly one notification for the device. *)
Theorem update_device_sets_name u d (content : PyDict) name s :
  content !! "display_name" = Some (VStr name) ->
  more_faults (store_update_device u d) = None ->
  no_faults env -> valid_ids env u ->
  device_exists s u d ->
  exists s',
    update_device env more_faults u d content s = (s', Ret tt) /\
    user_devices s' u !! d = Some (VStr name) /\
    (forall v d', (v, d') <> (u, d) -> user_devices s' v !! d' = user_devices s v !! d') /\
    notified env u [VStr d] s s'.
Proof.
  intros Hc Hm Hf Hv [old Hx]. unfold update_device, try_except. rewrite Hc. simpl.
  rewrite (bind_run _ _ _ _ _ (update_device_row_run u d old name s Hm Hx)).
  match goal with |- context [notify_device_update env u ?ids ?s0] =>
    destruct (notify_returns env u ids Hf Hv s0) as (s' & [] & En & _);
    pose proof (notify_store env u ids s0) as K;
    pose proof (notify_post env u ids s0 s' En) as Hn
  end.
  rewrite En in K |- *. destruct K as (_ & Kd & _). simpl in Kd.
  exists s'. split; [done|].
  destruct (renamed_devices u d name s s' Kd) as [H1 H2].
  split; [exact H1|]. split; [exact H2|].
  eapply notified_from; [|exact Hn]. by unfold same_changes.
Qed.

(** A renaming that returned has written the name. *)
Lemma update_device_returned u d (content : PyDict) name s s' :
  content !! "display_name" = Some (VStr name) ->
  update_device env more_faults u d content s = (s', Ret tt) ->
  user_devices s' u !! d = Some (VStr name).
Proof.
  intros Hc. unfold update_device, try_except. rewrite Hc. simpl.
  unfold bind at 1.
  destruct (update_device_row more_faults u d (VStr name) s) as [s1 [[]|e]] eqn:E.
  2:{ destruct e as [code msg| | | | | | |]; simpl; try done.
      destruct (code =? 404)%Z; done. }
  revert E. unfold update_device_row, call_more.
  destruct (more_faults (store_update_device u d)); [done|]. rewrite bind_ret_run.
  unfold bind, get_state.
  destruct (user_devices s u !! d) as [old|] eqn:Hx; [|done].
  unfold modify. intros [= <-].
  destruct (notify_device_update env u [VStr d] _) as [s2 [[]|e]] eqn:En.
  2:{ destruct e as [code msg| | | | | | |]; simpl; try done.
      destruct (code =? 404)%Z; done. }
  intros [= <-].
  match type of En with notify_device_update _ _ _ ?s0 = _ =>
    pose proof (notify_store env u [VStr d] s0) as K end.
  rewrite En in K. destruct K as (_ & Kd & _). simpl in Kd.
  eapply renamed_devices. exact Kd.
Qed.

(** X21: a name that was set can be read back: after a renaming that
    returned, [get_device] returns the row of the device with the new
    display name and the last-seen fields. *)
Theorem update_then_get_device u d (content : PyDict) name s s' :
  content !! "display_name" = Some (VStr name) ->
  update_device env more_faults u d content s = (s', Ret tt) ->
  faults env (store_get_device u d) = None ->
  faults env (store_get_last_client_ip_by_device [(u, d)]) = None ->
  exists s2,
    get_device env u d s'
    = (s2, Ret (with_last_seen env u d (device_row u d (VStr name)))).
Proof.
  intros Hc H Hf1 Hf2. apply (update_device_returned u d content name s s' Hc) in H.
  by apply get_device_returns.
Qed.

(** X22: an error of the storage renaming that does not signal not-found
    reaches the caller of [update_device] as it is, with nothing written. *)
Theorem update_device_propagates_other_errors u d (content : PyDict) e s :
  more_faults (store_update_device u d) = Some e ->
  is_not_found e = false ->
  update_device env more_faults u d content s = (s, Raise e).
Proof.
  intros Hf He. unfold update_device, try_except, update_device_row, call_more.
  rewrite Hf. unfold bind, raise.
  destruct e as [code msg| | | | | | |]; simpl in *; try done. by rewrite He.
Qed.

(** X23: the [except] clause of [update_device] also covers the
    notification: when the notification fails with a [StoreError] of code
    404, the caller gets [NotFoundError] although the device exists and its
    new name has been written. *)
Theorem update_device_reports_late_not_found u d (content : PyDict) name msg s :
  content !! "display_name" = Some (VStr name) ->
  more_faults (store_update_device u d) = None ->
  device_exists s u d ->
  faults env (store_get_rooms_for_user u) = Some (StoreError 404 msg) ->
  exists s',
    update_device env more_faults u d content s = (s', Raise NotFoundError) /\
    user_devices s' u !! d = Some (VStr name).
Proof.
  intros Hc Hm [old Hx] Hf. unfold update_device, try_except. rewrite Hc. simpl.
  rewrite (bind_run _ _ _ _ _ (update_device_row_run u d old name s Hm Hx)).
  unfold notify_device_update, get_rooms_for_user.
  erewrite bind_fails; [|erewrite bind_fails; [reflexivity | by apply call_fails]].
  simpl. eexists. split; [reflexivity|].
  apply (renamed_devices u d name s). reflexivity.
Qed.

(** X24: answering a query writes nothing on the serving side and echoes
    the user id; and when the answer, with a device id in each listed
    device, is what the querying server receives for its resync, that server
    ends with the served stream id as its extremity for the user and with
    exactly the served devices in its cache. *)
Theorem served_answer_is_cached origin edu user device_id stream_id ps a a' r s :
  on_federation_query_user_devices more_faults keyed_devices user a = (a', Ret r) ->
  remote_reply env origin user = as_query_result r ->
  Forall (fun dev => is_Some (dev !! "device_id")) (ud_devices r) ->
  edu_for edu user device_id stream_id ps ->
  after_colon user = Some origin ->
  no_faults env -> valid_ids env user ->
  single_match env ps (cached_extremity s user) = false ->
  a' = a /\ ud_user_id r = user /\
  exists s' ids,
    _incoming_device_list_update env origin edu s = (s', Ret tt) /\
    Forall2 (fun dev id => dev !! "device_id" = Some id) (keyed_devices a user).2 ids /\
    cached_extremity s' user = (keyed_devices a user).1 /\
    cached_devices s' user = zip ids (keyed_devices a user).2.
Proof.
  intros Ha Hreply Hdevs Hedu Hdom Hf Hv Hm.
  revert Ha. unfold on_federation_query_user_devices, get_devices_with_keys_by_user,
    call_more.
  destruct (more_faults (store_get_devices_with_keys_by_user user)); [done|].
  unfold bind, get_state, ret. intros [= <- <-].
  simpl in *. split; [done|]. split; [done|].
  destruct (full_resync_run env origin edu user device_id stream_id ps
              (keyed_devices a user).1 (keyed_devices a user).2 s)
    as (s' & ids & E & HF & Hc & _); try done.
  exists s', ids. split; [exact E|]. split; [exact HF|].
  unfold cached_extremity, cached_devices. by rewrite Hc.
Qed.

End FurtherUpdate.

(** ** The further properties at the scenarios *)

Ltac solve_valid_ids :=
  split; [by eexists|];
  let room := fresh "room" in let x := fresh "x" in
  let Hr := fresh "Hr" in let Hx := fresh "Hx" in
  intros room x Hr Hx;
  vm_compute (default [] _) in Hr;
  apply list_elem_of_singleton in Hr as ->;
  vm_compute (default [] _) in Hx;
  rewrite !elem_of_cons in Hx;
  destruct Hx as [-> | [-> | Hx]]; [by eexists | by eexists | by apply elem_of_nil in Hx].

Lemma home_valid_ids_remote : valid_ids home_env "@b:remote".
Proof. solve_valid_ids. Qed.

Lemma federated_valid_ids_remote : valid_ids federated_env "@b:remote".
Proof. solve_valid_ids. Qed.

Lemma foreign_origin_is_ignored_witness :
  _incoming_device_list_update home_env "elsewhere" edu_7 (cache_at (VStr "6"))
  = (cache_at (VStr "6"), Ret tt).
Proof.
  apply (foreign_origin_is_ignored home_env "elsewhere" edu_7 "@b:remote" "remote");
    [reflexivity | by eexists | by eexists | reflexivity | discriminate].
Defined.

Lemma missing_envelope_key_witness :
  _incoming_device_list_update home_env "remote" edu_no_stream init_state
  = (init_state, Raise (KeyError (VStr "stream_id"))).
Proof.
  apply (missing_envelope_key home_env "remote" edu_no_stream init_state);
    [by eexists | by eexists | reflexivity].
Defined.

Lemma full_resync_replaces_cache_witness :
  exists s' ids,
    _incoming_device_list_update home_env "remote" edu_7 stale_cache = (s', Ret tt) /\
    Forall2 (fun dev id => dev !! "device_id" = Some id)
      [({["device_id" := VStr "D1"]} : PyDict)] ids /\
    remote_cache s' !! "@b:remote"
      = Some {| stream_extremity := VStr "9";
                rc_devices := zip ids [({["device_id" := VStr "D1"]} : PyDict)] |} /\
    notified home_env "@b:remote" ids stale_cache s'.
Proof.
  apply (full_resync_replaces_cache home_env "remote" edu_7 "@b:remote"
           (VStr "D9") (VStr "7") [VStr "6"] (VStr "9")
           [({["device_id" := VStr "D1"]} : PyDict)] stale_cache).
  - apply edu_7_envelope.
  - reflexivity.
  - apply home_no_faults.
  - apply home_valid_ids_remote.
  - reflexivity.
  - reflexivity.
  - repeat constructor. by eexists.
Defined.

Lemma incremental_keeps_other_devices_witness :
  alist_lookup (VStr "D1")
    (cached_devices
       (_incoming_device_list_update home_env "remote" edu_7 cache_with_device).1
       "@b:remote")
  = alist_lookup (VStr "D1") (cached_devices cache_with_device "@b:remote").
Proof.
  apply (incremental_keeps_other_devices home_env "remote" edu_7 "@b:remote"
           (VStr "D9") (VStr "7") [VStr "6"] cache_with_device (VStr "D1"));
    [apply edu_7_envelope | reflexivity | reflexivity | reflexivity | reflexivity
    | discriminate].
Defined.

Lemma other_users_cache_untouched_witness :
  remote_cache
    (_incoming_device_list_update home_env "remote" edu_7 cache_with_device).1
    !! "@c:remote"
  = remote_cache cache_with_device !! "@c:remote".
Proof.
  apply (other_users_cache_untouched home_env "remote" edu_7 "@c:remote"
           cache_with_device).
  vm_compute. discriminate.
Defined.

Lemma notification_pokes_member_domains_witness :
  exists hs,
    NoDup hs /\
    (forall h, h ∈ hs <->
       is_local home_env "@a:home" /\ h <> server_name home_env /\
       member_domain home_env "@a:home" h) /\
    device_changes (notify_device_update home_env "@a:home" [VStr "D1"] init_state).1 =
      device_changes init_state
      ++ [{| stream_position := stream_pos init_state + 1; dlc_user_id := "@a:home";
             dlc_device_ids := [VStr "D1"]; destination_hosts := hs |}] /\
    pokes (notify_device_update home_env "@a:home" [VStr "D1"] init_state).1
      = pokes init_state ++ hs.
Proof.
  apply (notification_pokes_member_domains home_env "@a:home" [VStr "D1"] init_state).
  vm_compute. reflexivity.
Defined.

Lemma remote_user_never_federated_witness :
  pokes (notify_device_update home_env "@b:remote" [VStr "D9"] init_state).1
    = pokes init_state /\
  List.filter is_poke
    (calls (notify_device_update home_env "@b:remote" [VStr "D9"] init_state).1)
    = List.filter is_poke (calls init_state).
Proof.
  apply (remote_user_never_federated home_env "@b:remote" [VStr "D9"] "remote" init_state);
    [reflexivity | discriminate].
Defined.

Lemma delete_device_stops_on_row_error_witness :
  delete_device delete_fails_env "@a:home" "D1" one_device
  = (record_call (store_delete_device "@a:home" "D1") one_device,
     Raise (StoreError 500 "database unavailable")).
Proof.
  apply (delete_device_stops_on_row_error delete_fails_env "@a:home" "D1"
           (StoreError 500 "database unavailable") one_device);
    reflexivity.
Defined.

Lemma delete_device_revocation_failure_witness :
  exists s',
    delete_device revocation_fails_env "@a:home" "D1" one_device
      = (s', Raise (StoreError 500 "database unavailable")) /\
    ~ device_exists s' "@a:home" "D1" /\
    (forall v d', (v, d') <> ("@a:home", "D1") ->
       user_devices s' v !! d' = user_devices one_device v !! d') /\
    access_tokens s' = access_tokens one_device /\
    e2e_keys s' = e2e_keys one_device /\
    same_changes one_device s'.
Proof.
  apply (delete_device_revocation_failure revocation_fails_env "@a:home" "D1"
           (StoreError 500 "database unavailable") one_device);
    reflexivity.
Defined.

Lemma delete_device_twice_witness :
  exists s1 s2 h1 h2,
    delete_device home_env "@a:home" "D1" one_device = (s1, Ret tt) /\
    delete_device home_env "@a:home" "D1" s1 = (s2, Ret tt) /\
    devices s2 = devices s1 /\
    access_tokens s2 = access_tokens s1 /\
    e2e_keys s2 = e2e_keys s1 /\
    device_changes s2 =
      device_changes one_device
      ++ [{| stream_position := stream_pos one_device + 1; dlc_user_id := "@a:home";
             dlc_device_ids := [VStr "D1"]; destination_hosts := h1 |};
          {| stream_position := stream_pos one_device + 2; dlc_user_id := "@a:home";
             dlc_device_ids := [VStr "D1"]; destination_hosts := h2 |}].
Proof.
  apply (delete_device_twice home_env "@a:home" "D1" one_device);
    [apply home_no_faults | apply home_valid_ids].
Defined.

Lemma registration_keeps_known_name_witness :
  user_devices
    (check_device_registered home_env "@a:home" (Some "D1") (VStr "Phone") one_device).1
    "@a:home" !! "D1"
  = Some (default (VStr "Phone") (user_devices one_device "@a:home" !! "D1")) /\
  forall v d', (v, d') <> ("@a:home", "D1") ->
    user_devices
      (check_device_registered home_env "@a:home" (Some "D1") (VStr "Phone") one_device).1
      v !! d'
    = user_devices one_device v !! d'.
Proof.
  apply (registration_keeps_known_name home_env "@a:home" "D1" (VStr "Phone")
           one_device _ "D1").
  vm_compute. reflexivity.
Defined.

Lemma register_then_get_device_witness :
  exists s2,
    get_device home_env "@a:home" "D2"
      (check_device_registered home_env "@a:home" (Some "D2") (VStr "Tablet") one_device).1
    = (s2, Ret (with_last_seen home_env "@a:home" "D2"
                  (device_row "@a:home" "D2"
                     (name_after_register one_device "@a:home" "D2" (VStr "Tablet"))))).
Proof.
  apply (register_then_get_device home_env "@a:home" "D2" (VStr "Tablet")
           one_device _ "D2");
    [vm_compute; reflexivity | reflexivity | reflexivity].
Defined.

Lemma get_device_propagates_other_errors_witness :
  get_device lookup_timeout_env "@a:home" "D1" one_device
  = (record_call (store_get_device "@a:home" "D1") one_device,
     Raise (TransportError "timeout")).
Proof.
  apply (get_device_propagates_other_errors lookup_timeout_env "@a:home" "D1"
           (TransportError "timeout") one_device);
    reflexivity.
Defined.

Lemma get_device_of_absent_device_witness :
  get_device home_env "@a:home" "D1" init_state
    = (record_call (store_get_device "@a:home" "D1") init_state, Raise NotFoundError) /\
  calls (get_device home_env "@a:home" "D1" init_state).1
    = calls init_state ++ [store_get_device "@a:home" "D1"].
Proof.
  apply (get_device_of_absent_device home_env "@a:home" "D1" init_state);
    [reflexivity|].
  intros [x Hx]. vm_compute in Hx. discriminate.
Defined.

Lemma get_devices_by_user_one_per_device_witness :
  exists s' devs,
    get_devices_by_user home_env "@a:home" one_device = (s', Ret devs) /\
    length devs = size (user_devices one_device "@a:home") /\
    (user_devices one_device "@a:home" = ∅ -> devs = []) /\
    same_data one_device s'.
Proof.
  apply (get_devices_by_user_one_per_device home_env "@a:home" one_device).
  apply home_no_faults.
Defined.

Lemma made_up_ids_are_upper_case_witness : upper "ABCDEFGHIJ" = "ABCDEFGHIJ".
Proof.
  apply (made_up_ids_are_upper_case home_env "@a:home" VNone init_state
           (check_device_registered home_env "@a:home" None VNone init_state).1).
  vm_compute. reflexivity.
Defined.

Lemma made_up_ids_are_distinct_witness :
  "ABCDEFGHIJ" <> "BBCDEFGHIJ" /\
  device_exists
    (check_device_registered home_env "@a:home" None VNone
       (check_device_registered home_env "@a:home" None VNone init_state).1).1
    "@a:home" "ABCDEFGHIJ" /\
  device_exists
    (check_device_registered home_env "@a:home" None VNone
       (check_device_registered home_env "@a:home" None VNone init_state).1).1
    "@a:home" "BBCDEFGHIJ".
Proof.
  apply (made_up_ids_are_distinct home_env "@a:home" VNone VNone init_state
           (check_device_registered home_env "@a:home" None VNone init_state).1);
    vm_compute; reflexivity.
Defined.

Lemma no_rooms_no_changes_witness :
  exists s', get_device_list_changes home_env "@a:home" [] 0 one_device = (s', Ret ∅).
Proof.
  apply (no_rooms_no_changes home_env "@a:home" 0 one_device). apply home_no_faults.
Defined.

Lemma update_device_of_absent_device_witness :
  update_device home_env no_more_faults "@a:home" "D1" phone init_state
  = (init_state, Raise NotFoundError).
Proof.
  apply (update_device_of_absent_device home_env no_more_faults "@a:home" "D1"
           phone "Phone" init_state);
    [reflexivity | reflexivity |].
  intros [x Hx]. vm_compute in Hx. discriminate.
Defined.

Lemma update_device_sets_name_witness :
  exists s',
    update_device home_env no_more_faults "@a:home" "D1" phone one_device = (s', Ret tt) /\
    user_devices s' "@a:home" !! "D1" = Some (VStr "Phone") /\
    (forall v d', (v, d') <> ("@a:home", "D1") ->
       user_devices s' v !! d' = user_devices one_device v !! d') /\
    notified home_env "@a:home" [VStr "D1"] one_device s'.
Proof.
  apply (update_device_sets_name home_env no_more_faults "@a:home" "D1" phone "Phone"
           one_device);
    [reflexivity | reflexivity | apply home_no_faults | apply home_valid_ids |].
  exists VNone. vm_compute. reflexivity.
Defined.

Lemma update_then_get_device_witness :
  exists s2,
    get_device home_env "@a:home" "D1"
      (update_device home_env no_more_faults "@a:home" "D1" phone one_device).1
    = (s2, Ret (with_last_seen home_env "@a:home" "D1"
                  (device_row "@a:home" "D1" (VStr "Phone")))).
Proof.
  apply (update_then_get_device home_env no_more_faults "@a:home" "D1" phone "Phone"
           one_device);
    [reflexivity | vm_compute; reflexivity | reflexivity | reflexivity].
Defined.

Lemma update_device_propagates_other_errors_witness :
  update_device home_env rename_fails "@a:home" "D1" phone one_device
  = (one_device, Raise (StoreError 500 "database unavailable")).
Proof.
  apply (update_device_propagates_other_errors home_env rename_fails "@a:home" "D1"
           phone (StoreError 500 "database unavailable") one_device);
    reflexivity.
Defined.

Lemma update_device_reports_late_not_found_witness :
  device_exists one_device "@a:home" "D1" /\
  exists s',
    update_device rooms_missing_env no_more_faults "@a:home" "D1" phone one_device
      = (s', Raise NotFoundError) /\
    user_devices s' "@a:home" !! "D1" = Some (VStr "Phone").
Proof.
  assert (H : device_exists one_device "@a:home" "D1").
  { exists VNone. vm_compute. reflexivity. }
  split; [exact H|].
  apply (update_device_reports_late_not_found rooms_missing_env no_more_faults
           "@a:home" "D1" phone "Phone" "No row found" one_device);
    [reflexivity | reflexivity | exact H | reflexivity].
Defined.

Lemma served_answer_is_cached_witness :
  one_remote_device = one_remote_device /\ ud_user_id served_answer = "@b:remote" /\
  exists s' ids,
    _incoming_device_list_update federated_env "remote" edu_7 stale_cache = (s', Ret tt) /\
    Forall2 (fun dev id => dev !! "device_id" = Some id)
      (plain_listing one_remote_device "@b:remote").2 ids /\
    cached_extremity s' "@b:remote" = (plain_listing one_remote_device "@b:remote").1 /\
    cached_devices s' "@b:remote" = zip ids (plain_listing one_remote_device "@b:remote").2.
Proof.
  apply (served_answer_is_cached federated_env no_more_faults plain_listing
           "remote" edu_7 "@b:remote" (VStr "D9") (VStr "7") [VStr "6"]
           one_remote_device one_remote_device served_answer stale_cache).
  - reflexivity.
  - reflexivity.
  - vm_compute. repeat constructor. by eexists.
  - apply edu_7_envelope.
  - reflexivity.
  - by intros c.
  - apply federated_valid_ids_remote.
  - reflexivity.
Defined.
